(** * unifti: the schema-to-C generator of scripts/ksy.py

    A shallow embedding of [scripts/ksy.py] and the properties of its
    generators.  Python strings are Rocq strings read as sequences of
    code points below 256, Python integers are [Z], a raised exception
    is a value of [PyErr] carried by [result]. *)

From Stdlib Require Import String Ascii List ZArith Lia Bool DecimalString.
Import ListNotations.
Open Scope string_scope.

(** ** Exceptions and the error monad *)

Inductive PyErr : Type :=
| KeyError
| IndexError
| ValueError
| AttributeError
| AssertionError.

Inductive result (A : Type) : Type :=
| Ok (a : A)
| Err (e : PyErr).

Arguments Ok {A} a.
Arguments Err {A} e.

Definition bind {A B : Type} (m : result A) (k : A -> result B) : result B :=
  match m with
  | Ok a => k a
  | Err e => Err e
  end.

Declare Scope py_scope.
Delimit Scope py_scope with py.
Notation "x <- m ;; k" := (bind m (fun x => k))
  (at level 61, m at next level, right associativity) : py_scope.
Open Scope py_scope.

Definition is_ok {A : Type} (m : result A) : bool :=
  match m with
  | Ok _ => true
  | Err _ => false
  end.

(** [d[k]] on a key that may be absent. *)
Definition getitem {A : Type} (o : option A) : result A :=
  match o with
  | Some a => Ok a
  | None => Err KeyError
  end.

(** A [for] loop threading the variables its body assigns; the first
    exception leaves the loop. *)
Fixpoint for_in {A S : Type} (l : list A) (body : A -> S -> result S) (s : S)
  : result S :=
  match l with
  | [] => Ok s
  | a :: l' => s' <- body a s ;; for_in l' body s'
  end.

(** A list comprehension whose element expression may raise. *)
Fixpoint comprehension {A B : Type} (f : A -> result B) (l : list A)
  : result (list B) :=
  match l with
  | [] => Ok []
  | a :: l' => b <- f a ;; bs <- comprehension f l' ;; Ok (b :: bs)
  end.

(** ** The Python built-ins the script uses *)

Module Py.

(** The line feed, and the double quote (written by code). *)
Definition nl : string := String (ascii_of_nat 10) EmptyString.
Definition dq : string := String (ascii_of_nat 34) EmptyString.

(** [str(i)] for an integer. *)
Definition str (i : Z) : string := NilZero.string_of_int (Z.to_int i).

(** [f"{x}"] for an optional integer: [None] prints as its name. *)
Definition fmt_opt (o : option Z) : string :=
  match o with
  | Some i => str i
  | None => "None"
  end.

(** [sep.join(l)] *)
Definition join (sep : string) (l : list string) : string :=
  String.concat sep l.

(** [range(k)]: empty when [k] is not positive. *)
Definition range (k : Z) : list Z := map Z.of_nat (seq 0 (Z.to_nat k)).

(** [x in l] for a list of strings. *)
Definition contains (x : string) (l : list string) : bool :=
  existsb (String.eqb x) l.

(** [s.split(sep)] for a separator of one character: one more piece
    than there are separators, empty pieces kept. *)
Fixpoint split (sep : ascii) (s : string) : list string :=
  match s with
  | EmptyString => [EmptyString]
  | String c s' =>
      if Ascii.eqb c sep then EmptyString :: split sep s'
      else match split sep s' with
           | tok :: toks => String c tok :: toks
           | [] => [String c EmptyString]
           end
  end.

(** [c.isspace()] on the code points below 256. *)
Definition isspace (c : ascii) : bool :=
  let n := nat_of_ascii c in
  (((9 <=? n) && (n <=? 13)) || ((28 <=? n) && (n <=? 32))
   || (n =? 133) || (n =? 160))%nat.

Fixpoint lstrip (s : string) : string :=
  match s with
  | EmptyString => EmptyString
  | String c s' => if isspace c then lstrip s' else s
  end.

Fixpoint rstrip (s : string) : string :=
  match s with
  | EmptyString => EmptyString
  | String c s' =>
      match rstrip s' with
      | EmptyString => if isspace c then EmptyString else String c EmptyString
      | r => String c r
      end
  end.

(** [s.strip()] *)
Definition strip (s : string) : string := lstrip (rstrip s).

(** [s.ljust(width)] *)
Definition ljust (s : string) (width : Z) : string :=
  s ++ String.concat "" (repeat " " (Z.to_nat (width - Z.of_nat (String.length s)))).

(** [s.replace(old, new)] for a non-empty [old]: the occurrences are
    taken from the left and do not overlap.  [skip] counts the
    characters of a matched occurrence still to be dropped. *)
Fixpoint replace_from (old new : string) (skip : nat) (s : string) : string :=
  match s with
  | EmptyString => EmptyString
  | String c s' =>
      match skip with
      | S n => replace_from old new n s'
      | O =>
          if String.prefix old s
          then new ++ replace_from old new (String.length old - 1) s'
          else String c (replace_from old new 0 s')
      end
  end.

Definition replace (old new s : string) : string := replace_from old new 0 s.

(** [s[1:]] *)
Definition tail (s : string) : string :=
  match s with
  | EmptyString => EmptyString
  | String _ s' => s'
  end.

Definition digit (c : ascii) : option Z :=
  let n := nat_of_ascii c in
  if ((48 <=? n) && (n <=? 57))%nat then Some (Z.of_nat (n - 48)) else None.

(** The digits of an integer literal: single underscores may stand
    between two digits. *)
Fixpoint digits (acc : Z) (after_digit : bool) (s : string) : option Z :=
  match s with
  | EmptyString => if after_digit then Some acc else None
  | String c s' =>
      match digit c with
      | Some d => digits (10 * acc + d) true s'
      | None =>
          if Ascii.eqb c "_" && after_digit then digits acc false s' else None
      end
  end.

(** The white space [int] skips around a literal: the ASCII blanks, and
    the two spaces above 127, which it first turns into blanks.  The
    separators 28 to 31 are white space for [strip] and not for [int]. *)
Definition int_space (c : ascii) : bool :=
  let n := nat_of_ascii c in
  (((9 <=? n) && (n <=? 13)) || (n =? 32) || (n =? 133) || (n =? 160))%nat.

Fixpoint int_lstrip (s : string) : string :=
  match s with
  | EmptyString => EmptyString
  | String c s' => if int_space c then int_lstrip s' else s
  end.

Fixpoint int_rstrip (s : string) : string :=
  match s with
  | EmptyString => EmptyString
  | String c s' =>
      match int_rstrip s' with
      | EmptyString => if int_space c then EmptyString else String c EmptyString
      | r => String c r
      end
  end.

(** The number of digits of a literal. *)
Fixpoint count_digits (s : string) : Z :=
  match s with
  | EmptyString => 0
  | String c s' =>
      (match digit c with
       | Some _ => 1
       | None => 0
       end + count_digits s')%Z
  end.

(** [int(s)] in base ten: surrounding white space, an optional sign,
    then the digits; anything else raises [ValueError], and so does a
    literal of more than 4300 digits. *)
Definition int (s : string) : result Z :=
  let literal := int_lstrip (int_rstrip s) in
  let parsed :=
    match literal with
    | String "-" r => option_map Z.opp (digits 0 false r)
    | String "+" r => digits 0 false r
    | r => digits 0 false r
    end in
  match parsed with
  | Some z => if (4300 <? count_digits literal)%Z then Err ValueError else Ok z
  | None => Err ValueError
  end.

(** [max(l)] for a list of integers: [ValueError] on the empty list. *)
Definition max (l : list Z) : result Z :=
  match l with
  | [] => Err ValueError
  | x :: l' => Ok (fold_left Z.max l' x)
  end.

(** [len(s)] *)
Definition len (s : string) : Z := Z.of_nat (String.length s).

End Py.

(** ** The collaborators [cg] and [utils]

    [scripts/cg.py] and [scripts/utils.py] are imported by the script;
    the generators only call their helpers, which build C names, indent
    and comment text, and read integer literals.  The generators are
    modelled and verified for every implementation of the helpers. *)

(** [cg.CFunc] *)
Record CFunc : Type := mkCFunc {
  prefix : string;
  signature : string;
  body : string
}.

Class Cg : Type := {
  cn_enum_value : string -> string -> string;
  cn_func_name : string -> string;
  cn_arg : string -> string;
  cn_struct_type : string -> string;
  (** [cg.cindent(text, level)], the level being 1 when left out *)
  cindent : string -> nat -> string;
  comment : string -> string;
  (** [cg.docstring(brief=text)] *)
  docstring_brief : string -> string;
  ensure_linebreak : string -> string;
  (** [cg.CPrintfBuilder]: an object that [add] mutates, here a value
      passed from call to call *)
  CPrintfBuilder : Type;
  new_CPrintfBuilder : string -> CPrintfBuilder;
  printf_add : CPrintfBuilder -> string -> list string -> CPrintfBuilder;
  printf_build : CPrintfBuilder -> string
}.

Class Utils : Type := {
  is_int_literal : string -> bool;
  int_literal : string -> Z
}.

(** ** The type mapping tables *)

Fixpoint lookup (table : list (string * string)) (key : string) : option string :=
  match table with
  | [] => None
  | (k, v) :: table' => if String.eqb key k then Some v else lookup table' key
  end.

Definition KSY2C_TYPE : list (string * string) :=
  [ ("s1", "int8_t"); ("u1", "uint8_t"); ("s2", "int16_t"); ("u2", "uint16_t");
    ("s4", "int32_t"); ("u4", "uint32_t"); ("s8", "int64_t"); ("u8", "uint64_t");
    ("f4", "float"); ("f8", "double") ].

Definition KSY2C_FPRINT : list (string * string) :=
  [ ("s1", "%i"); ("u1", "%u"); ("s2", "%i"); ("u2", "%u");
    ("s4", "%i"); ("u4", "%u"); ("s8", "%li"); ("u8", "%lu");
    ("f4", "%f"); ("f8", "%f") ].

Definition KSY_BYTESWAPPABLE : list string :=
  ["s1"; "u1"; "s2"; "u2"; "s4"; "u4"; "s8"; "u8"; "f4"; "f8"].

(** ** Enumerations *)

Module KsyEnumValue.

Record t : Type := mk {
  name : string;
  var : string;
  value : Z;
  doc : option string
}.

Section Methods.
Context `{Cg}.

Definition cn (self : t) : string := cn_enum_value (name self) (var self).

Definition cn_str (self : t) : string := cn self ++ "_STR".

End Methods.

End KsyEnumValue.

Module KsyEnum.

Record t : Type := mk {
  name : string;
  values : list KsyEnumValue.t
}.

(** [l[0]] *)
Definition first {A : Type} (l : list A) : result A :=
  match l with
  | [] => Err IndexError
  | a :: _ => Ok a
  end.

Section Methods.
Context `{Cg}.

(** The keyword arguments of [cg.CFunc] are evaluated in the order
    they are written: prefix, signature, body. *)
Definition cdynamic_from_name (self : t) : result CFunc :=
  let prefix_ := comment ("Returns the " ++ name self ++ " value from its name.") in
  let signature_ :=
    "int32_t " ++ cn_func_name (name self ++ "_from_name")
    ++ "(const char *" ++ cn_arg (name self) ++ ")" in
  v0 <- first (values self) ;;
  Ok (mkCFunc prefix_ signature_
        (Py.join Py.nl
           [ "if (" ++ cn_arg (name self) ++ " == NULL) return -1;";
             "if (strcmp(" ++ cn_arg (name self) ++ ", " ++ KsyEnumValue.cn_str v0
             ++ ") == 0) return " ++ KsyEnumValue.cn v0 ++ ";";
             Py.join Py.nl
               (map (fun v =>
                       cindent
                         ("else if (strcmp(" ++ cn_arg (name self) ++ ", "
                          ++ KsyEnumValue.cn_str v ++ ") == 0) return "
                          ++ KsyEnumValue.cn v ++ ";") 1)
                    (values self));
             "return -1;" ])).

End Methods.

End KsyEnum.

(** ** Sequence fields *)

(** An entry of a struct's [seq] list as the YAML loader gives it: a
    dict read at the keys [id], [type], [size], [repeat], [repeat-expr],
    [enum] and [doc], each of which may be absent. *)
Record ksy_field : Type := mk_ksy_field {
  key_id : option string;
  key_type : option string;
  key_size : option Z;
  key_repeat : option string;
  key_repeat_expr : option Z;
  key_enum : option string;
  key_doc : option string
}.

Module KsyStructField.

Record t : Type := mk {
  name : string;
  type : string;
  str_len : option Z;
  arr_len : option Z;
  enum : option string;
  doc : option string
}.

(** [__init__]: the attributes the body does not assign keep the class
    defaults, [None]. *)
Definition init (ksy_field : ksy_field) : result t :=
  name_ <- getitem (key_id ksy_field) ;;
  let type_ :=
    match key_type ksy_field with
    | None => "u1"
    | Some ty => ty
    end in
  lens <- match key_type ksy_field with
          | None =>
              size <- getitem (key_size ksy_field) ;;
              Ok (None, Some size)
          | Some _ =>
              if String.eqb type_ "str" then
                size <- getitem (key_size ksy_field) ;;
                Ok (Some size, None)
              else
                match key_repeat ksy_field with
                | Some _ =>
                    count <- getitem (key_repeat_expr ksy_field) ;;
                    Ok (None, Some count)
                | None => Ok (None, None)
                end
          end ;;
  Ok (mk name_ type_ (fst lens) (snd lens) (key_enum ksy_field) (key_doc ksy_field)).

Definition cdef (self : t) : result string :=
  if String.eqb (type self) "str" then
    Ok ("char " ++ name self ++ "[" ++ Py.fmt_opt (str_len self) ++ "]")
  else
    match arr_len self with
    | Some k =>
        ty <- getitem (lookup KSY2C_TYPE (type self)) ;;
        Ok (ty ++ " " ++ name self ++ "[" ++ Py.str k ++ "]")
    | None =>
        ty <- getitem (lookup KSY2C_TYPE (type self)) ;;
        Ok (ty ++ " " ++ name self)
    end.

Definition ctype (self : t) : result string :=
  if String.eqb (type self) "str" then Ok "char *"
  else
    match arr_len self with
    | Some _ =>
        ty <- getitem (lookup KSY2C_TYPE (type self)) ;;
        Ok (ty ++ " *")
    | None =>
        ty <- getitem (lookup KSY2C_TYPE (type self)) ;;
        Ok ty
    end.

Definition ctype_fprint (self : t) : result string :=
  match enum self with
  | Some _ => Ok "%s (%i)"
  | None =>
      if String.eqb (type self) "str" then
        Ok ("'%." ++ Py.fmt_opt (str_len self) ++ "s'")
      else
        match arr_len self with
        | Some k =>
            arr_strs <- comprehension
                          (fun _ => getitem (lookup KSY2C_FPRINT (type self)))
                          (Py.range k) ;;
            Ok ("[ " ++ Py.join ", " arr_strs ++ " ]")
        | None => getitem (lookup KSY2C_FPRINT (type self))
        end
  end.

Definition needs_byteswap (self : t) : bool :=
  Py.contains (type self) KSY_BYTESWAPPABLE.

Definition nbytes (self : t) : result Z := Py.int (Py.tail (type self)).

End KsyStructField.

(** ** Computed fields *)

(** An entry of a struct's [instances] dict, read at the keys [enum] and
    [value]. *)
Record ksy_comp : Type := mk_ksy_comp {
  comp_key_enum : option string;
  comp_key_value : option string
}.

(** A struct definition of the grammar's [types], read at the keys [seq]
    and [instances]; the instances keep the order of the dict. *)
Record ksy_struct_def : Type := mk_ksy_struct_def {
  key_seq : option (list ksy_field);
  key_instances : option (list (string * ksy_comp))
}.

Module KsyStructCompField.

Record t : Type := mk {
  name : string;
  enum : option string;
  expr : option string
}.

Definition init (name_ : string) (ksy_comp : ksy_comp) : t :=
  mk name_ (comp_key_enum ksy_comp) (comp_key_value ksy_comp).

Definition ctype_fprint (self : t) : string :=
  match enum self with
  | Some _ => "%s (%i)"
  | None => "%i"
  end.

End KsyStructCompField.

(** ** Structs *)

Module KsyStruct.

Record t : Type := mk {
  name : string;
  ksy_struct : ksy_struct_def
}.

(** [for field in self.iter_fields(): body]: the generator reads [seq]
    when the loop starts and builds one field per turn, just before the
    body runs on it. *)
Definition iter_fields {S : Type} (self : t)
  (body : KsyStructField.t -> S -> result S) (s : S) : result S :=
  seq_ <- getitem (key_seq (ksy_struct self)) ;;
  for_in seq_ (fun entry s' => field <- KsyStructField.init entry ;; body field s') s.

(** [for field in self.iter_comp_fields(): body] *)
Definition iter_comp_fields {S : Type} (self : t)
  (body : KsyStructCompField.t -> S -> result S) (s : S) : result S :=
  instances <- getitem (key_instances (ksy_struct self)) ;;
  for_in instances
    (fun item s' => body (KsyStructCompField.init (fst item) (snd item)) s') s.

(** [[f.name for f in self.iter_fields()]] *)
Definition field_names (self : t) : result (list string) :=
  iter_fields self (fun f names => Ok (names ++ [KsyStructField.name f])%list) [].

End KsyStruct.

(** ** The generators *)

(** A row of the printer's table: label, format fragment, arguments. *)
Definition print_row : Type := (string * string * list string)%type.

Section Generators.
Context `{Cg} `{Utils}.

(** The body of the loop of [cexpr] over the tokens; the state is the
    text [cexpr].  The membership test rebuilds the struct's fields for
    every token. *)
Definition cexpr_token (ksy_struct : KsyStruct.t) (tok cexpr_ : string)
  : result string :=
  names <- KsyStruct.field_names ksy_struct ;;
  let cexpr_ :=
    if Py.contains tok names then
      cexpr_ ++ (cn_arg (KsyStruct.name ksy_struct) ++ "->" ++ tok)
    else if is_int_literal tok then
      cexpr_ ++ Py.str (int_literal tok)
    else
      cexpr_ ++ tok in
  Ok (cexpr_ ++ " ").

(** [KsyStructCompField.cexpr]: it takes the owning struct, so it stands
    after [KsyStruct].  With no expression, [self.expr] is [None] and
    has no [split]. *)
Definition cexpr (self : KsyStructCompField.t) (ksy_struct : KsyStruct.t)
  : result string :=
  comp_expr_tokens <- match KsyStructCompField.expr self with
                      | Some e => Ok (Py.split " " e)
                      | None => Err AttributeError
                      end ;;
  cexpr_ <- for_in comp_expr_tokens (cexpr_token ksy_struct) "" ;;
  Ok (Py.strip cexpr_).

(** The body of the printer's loop over the sequence fields; the state
    is [func_body_prefix] and [print_table]. *)
Definition print_field (ksy_struct : KsyStruct.t) (enum_unknown : string)
  (field : KsyStructField.t) (st : string * list print_row)
  : result (string * list print_row) :=
  let '(func_body_prefix, print_table) := st in
  let field_access :=
    cn_arg (KsyStruct.name ksy_struct) ++ "->" ++ KsyStructField.name field in
  let pt_name := KsyStructField.name field in
  pt_value <- KsyStructField.ctype_fprint field ;;
  let '(func_body_prefix, pt_args) :=
    match KsyStructField.arr_len field with
    | Some k =>
        (func_body_prefix,
         map (fun i => field_access ++ "[" ++ Py.str i ++ "]") (Py.range k))
    | None =>
        match KsyStructField.enum field with
        | Some en =>
            let enum_lookup_var := en ++ "_" ++ KsyStructField.name field in
            (func_body_prefix ++ ("const char *" ++ enum_lookup_var ++ " = "
                                  ++ cn_func_name en ++ "_name(" ++ field_access
                                  ++ ");" ++ Py.nl),
             [ "(" ++ enum_lookup_var ++ " == NULL ? " ++ Py.dq ++ enum_unknown
               ++ Py.dq ++ " : " ++ enum_lookup_var ++ ")";
               field_access ])
        | None => (func_body_prefix, [field_access])
        end
    end in
  Ok (func_body_prefix, (print_table ++ [(pt_name, pt_value, pt_args)])%list).

(** The body of the printer's loop over the computed fields. *)
Definition print_comp_field (ksy_struct : KsyStruct.t) (enum_unknown : string)
  (field : KsyStructCompField.t) (st : string * list print_row)
  : result (string * list print_row) :=
  let '(func_body_prefix, print_table) := st in
  let pt_name := "*" ++ KsyStructCompField.name field in
  let pt_value := KsyStructCompField.ctype_fprint field in
  let field_access :=
    cn_func_name (KsyStruct.name ksy_struct ++ "_" ++ KsyStructCompField.name field)
    ++ "(" ++ cn_arg (KsyStruct.name ksy_struct) ++ ")" in
  let '(func_body_prefix, pt_args) :=
    match KsyStructCompField.enum field with
    | Some en =>
        let enum_lookup_var := en ++ "_" ++ KsyStructCompField.name field in
        (func_body_prefix ++ ("const char *" ++ enum_lookup_var ++ " = "
                              ++ cn_func_name en ++ "_name(" ++ field_access
                              ++ ");" ++ Py.nl),
         [ "(" ++ enum_lookup_var ++ " == NULL ? " ++ Py.dq ++ enum_unknown
           ++ Py.dq ++ " : " ++ enum_lookup_var ++ ")" ])
    | None => (func_body_prefix, [])
    end in
  Ok (func_body_prefix,
      (print_table ++ [(pt_name, pt_value, (pt_args ++ [field_access])%list)])%list).

Definition build_print_struct (ksy_struct : KsyStruct.t) (printf_alias : string)
  (enum_unknown : string) : result CFunc :=
  let brintf_builder := new_CPrintfBuilder printf_alias in
  st <- KsyStruct.iter_fields ksy_struct (print_field ksy_struct enum_unknown)
          ("", []) ;;
  st <- KsyStruct.iter_comp_fields ksy_struct
          (print_comp_field ksy_struct enum_unknown) st ;;
  let '(func_body_prefix, print_table) := st in
  max_key_len <- Py.max (map (fun row : print_row => Py.len (fst (fst row)))
                           print_table) ;;
  let brintf_builder :=
    fold_left
      (fun b (row : print_row) =>
         let '(pt_name, pt_value, pt_args) := row in
         printf_add b (Py.ljust pt_name max_key_len ++ " : " ++ pt_value ++ "\n")
           pt_args)
      print_table brintf_builder in
  Ok (mkCFunc
        (comment ("Utility function for printing " ++ KsyStruct.name ksy_struct ++ "."))
        ("void " ++ cn_func_name (KsyStruct.name ksy_struct ++ "_print")
         ++ "(const " ++ cn_struct_type (KsyStruct.name ksy_struct) ++ " *"
         ++ cn_arg (KsyStruct.name ksy_struct) ++ ")")
        (ensure_linebreak func_body_prefix ++ printf_build brintf_builder ++ ";")).

(** The body of the byte swapper's loop; the state is [func_body]. *)
Definition byteswap_field (ksy_struct : KsyStruct.t) (field : KsyStructField.t)
  (func_body : string) : result string :=
  if negb (KsyStructField.needs_byteswap field) then Ok func_body
  else
    nbytes <- KsyStructField.nbytes field ;;
    if Z.eqb nbytes 1 then Ok func_body
    else
      let field_access :=
        cn_arg (KsyStruct.name ksy_struct) ++ "->" ++ KsyStructField.name field in
      match KsyStructField.arr_len field with
      | Some k =>
          Ok (func_body
              ++ Py.join Py.nl
                   [ cindent (Py.nl ++ "for (int i = 0; i < " ++ Py.str k
                              ++ "; ++i) {") 1;
                     cindent (field_access ++ "[i] = bswap" ++ Py.str (nbytes * 8)
                              ++ "(" ++ field_access ++ "[i]);") 2;
                     cindent "}" 1 ])
      | None =>
          Ok (func_body
              ++ (Py.nl ++ field_access ++ " = bswap" ++ Py.str (nbytes * 8)
                  ++ "(" ++ field_access ++ ");"))
      end.

Definition build_byteswap_struct (ksy_struct : KsyStruct.t) : result CFunc :=
  func_body <- KsyStruct.iter_fields ksy_struct (byteswap_field ksy_struct) "" ;;
  Ok (mkCFunc
        (comment ("Utility function for byte swapping "
                  ++ KsyStruct.name ksy_struct ++ "."))
        ("void " ++ cn_func_name (KsyStruct.name ksy_struct ++ "_swap") ++ "("
         ++ cn_struct_type (KsyStruct.name ksy_struct) ++ " *"
         ++ cn_arg (KsyStruct.name ksy_struct) ++ ")")
        func_body).

(** The body of the loop that generates the accessor functions; the
    state is the list [funcs]. *)
Definition comp_field_func (ksy_struct : KsyStruct.t) (field : KsyStructCompField.t)
  (funcs : list CFunc) : result (list CFunc) :=
  comp_expr <- cexpr field ksy_struct ;;
  Ok (funcs
      ++ [ mkCFunc
             (comment ("Computed header field " ++ KsyStructCompField.name field))
             ("int32_t "
              ++ cn_func_name (KsyStruct.name ksy_struct ++ "_"
                               ++ KsyStructCompField.name field)
              ++ "(const " ++ cn_struct_type (KsyStruct.name ksy_struct)
              ++ " *" ++ cn_arg (KsyStruct.name ksy_struct) ++ ")")
             ("return " ++ comp_expr ++ ";") ])%list.

Definition build_comp_field_funcs (ksy_struct : KsyStruct.t) : result (list CFunc) :=
  KsyStruct.iter_comp_fields ksy_struct (comp_field_func ksy_struct) [].

(** [a == b] for two optional integers. *)
Definition opt_eqb (a b : option Z) : bool :=
  match a, b with
  | Some x, Some y => Z.eqb x y
  | None, None => true
  | _, _ => false
  end.

(** [assert c] *)
Definition assert (c : bool) : result unit :=
  if c then Ok tt else Err AssertionError.

(** The body of the converter's inner loop, run on one source field and
    one destination field; the state is [body]. *)
Definition convert_pair (arg_src arg_dest : string) (skip_field_names : list string)
  (src_field dest_field : KsyStructField.t) (body_ : string) : result string :=
  if String.eqb (KsyStructField.name src_field) (KsyStructField.name dest_field)
     && negb (Py.contains (KsyStructField.name src_field) skip_field_names)
  then
    let src_accessor := arg_src ++ "->" ++ KsyStructField.name src_field in
    let dest_accessor := arg_dest ++ "->" ++ KsyStructField.name dest_field in
    src_ctype <- KsyStructField.ctype src_field ;;
    dest_ctype <- KsyStructField.ctype dest_field ;;
    let cast := if String.eqb src_ctype dest_ctype then ""
                else "(" ++ dest_ctype ++ ") " in
    let cast := Py.replace " *" "" cast in
    match KsyStructField.arr_len src_field with
    | Some k =>
        _ <- assert (opt_eqb (Some k) (KsyStructField.arr_len dest_field)) ;;
        Ok (body_
            ++ (Py.nl ++ "for (int i = 0; i < " ++ Py.str k ++ "; ++i) { "
                ++ dest_accessor ++ "[i] = " ++ cast ++ src_accessor ++ "[i]; }"))
    | None =>
        match KsyStructField.str_len src_field with
        | Some n =>
            _ <- assert (opt_eqb (Some n) (KsyStructField.str_len dest_field)) ;;
            Ok (body_
                ++ (Py.nl ++ "memcpy(" ++ dest_accessor ++ ", " ++ src_accessor
                    ++ ", " ++ Py.str n ++ ");"))
        | None =>
            Ok (body_
                ++ (Py.nl ++ dest_accessor ++ " = " ++ cast ++ src_accessor ++ ";"))
        end
    end
  else Ok body_.

(** The converter's two nested loops, started on [body_prefix]. *)
Definition convert_body (struct_src struct_dest : KsyStruct.t) (body_prefix : string)
  (skip_field_names : list string) : result string :=
  let arg_src := cn_arg (KsyStruct.name struct_src) in
  let arg_dest := cn_arg (KsyStruct.name struct_dest) in
  KsyStruct.iter_fields struct_src
    (fun src_field body_ =>
       KsyStruct.iter_fields struct_dest
         (convert_pair arg_src arg_dest skip_field_names src_field) body_)
    body_prefix.

Definition convert_struct (struct_src struct_dest : KsyStruct.t) (body_prefix : string)
  (skip_field_names : list string) : result CFunc :=
  body_ <- convert_body struct_src struct_dest body_prefix skip_field_names ;;
  Ok (mkCFunc
        (docstring_brief ("Convert " ++ KsyStruct.name struct_src ++ " to "
                          ++ KsyStruct.name struct_dest ++ "."))
        ("int32_t "
         ++ cn_func_name (KsyStruct.name struct_src ++ "_to_"
                          ++ KsyStruct.name struct_dest)
         ++ "(const " ++ cn_struct_type (KsyStruct.name struct_src) ++ " *"
         ++ cn_arg (KsyStruct.name struct_src) ++ ", "
         ++ cn_struct_type (KsyStruct.name struct_dest) ++ " *"
         ++ cn_arg (KsyStruct.name struct_dest) ++ ")")
        (Py.nl ++ body_ ++ Py.nl ++ "return 1;" ++ Py.nl)).

End Generators.

(** [list(self.iter_fields())]: every field of the struct, built in
    [seq] order. *)
Definition fields_of (self : KsyStruct.t) : result (list KsyStructField.t) :=
  seq_ <- getitem (key_seq (KsyStruct.ksy_struct self)) ;;
  comprehension KsyStructField.init seq_.

(** ** A sample convention and sample schemas

    The helpers of [cg] and [utils] are not fixed by the script; to run
    the generators on concrete schemas, this instance names things
    plainly, indents every non-empty line by two spaces a level and
    reads decimal literals. *)

Definition indent_lines (pad s : string) : string :=
  Py.join Py.nl
    (map (fun line => if String.eqb line "" then "" else pad ++ line)
       (Py.split (ascii_of_nat 10) s)).

Definition plain_cg : Cg := {|
  cn_enum_value := fun n v => n ++ "_" ++ v;
  cn_func_name := fun n => n;
  cn_arg := fun n => n;
  cn_struct_type := fun n => n ++ "_t";
  cindent := fun s level => indent_lines (String.concat "" (repeat "  " level)) s;
  comment := fun s => "// " ++ s;
  docstring_brief := fun s => "/// " ++ s;
  ensure_linebreak := fun s => s;
  CPrintfBuilder := (string * (string * list string))%type;
  new_CPrintfBuilder := fun p => (p, ("", []));
  printf_add := fun b fmt args =>
    (fst b, (fst (snd b) ++ fmt, (snd (snd b) ++ args)%list));
  printf_build := fun b =>
    fst b ++ "(" ++ String.concat ", " (fst (snd b) :: snd (snd b)) ++ ")"
|}.

Definition plain_utils : Utils := {|
  is_int_literal := fun tok =>
    match Py.digits 0 false tok with
    | Some _ => true
    | None => false
    end;
  int_literal := fun tok =>
    match Py.digits 0 false tok with
    | Some z => z
    | None => 0%Z
    end
|}.

Definition red : KsyEnumValue.t := KsyEnumValue.mk "color" "RED" 0 None.
Definition green : KsyEnumValue.t := KsyEnumValue.mk "color" "GREEN" 1 None.
Definition color : KsyEnum.t := KsyEnum.mk "color" [red; green].
Definition no_values : KsyEnum.t := KsyEnum.mk "nothing" [].

(** The test the reverse lookup makes against one declared name. *)
Definition strcmp_test `{Cg} (enum_name : string) (v : KsyEnumValue.t) : string :=
  "if (strcmp(" ++ cn_arg enum_name ++ ", " ++ KsyEnumValue.cn_str v
  ++ ") == 0) return " ++ KsyEnumValue.cn v ++ ";".

(** The number of places of [s] where [pat] starts. *)
Fixpoint occurrences (pat s : string) : nat :=
  match s with
  | EmptyString => 0
  | String _ s' => (if String.prefix pat s then 1 else 0) + occurrences pat s'
  end.

(** An entry with a type the tables do not know. *)
Definition entry_unknown_tag : ksy_field :=
  mk_ksy_field (Some "x") (Some "foo") None None None None None.

(** An entry with a repeat count and no [repeat] key. *)
Definition entry_count_only : ksy_field :=
  mk_ksy_field (Some "x") (Some "u4") None None (Some 4%Z) None None.

(** An array of two enum-tagged values. *)
Definition entry_enum_array : ksy_field :=
  mk_ksy_field (Some "x") (Some "u4") None (Some "expr") (Some 2%Z) (Some "color") None.

Definition entry_bytes : ksy_field :=
  mk_ksy_field (Some "magic") None (Some 4%Z) None None None None.
Definition entry_str : ksy_field :=
  mk_ksy_field (Some "descrip") (Some "str") (Some 80%Z) None None None None.
Definition entry_array : ksy_field :=
  mk_ksy_field (Some "pixels") (Some "u4") None (Some "expr") (Some 4%Z) None None.
Definition entry_scalar : ksy_field :=
  mk_ksy_field (Some "crc") (Some "u4") None None None None None.

(** What the byte swapper's loop adds to the body on one field: the
    empty text when the field is passed over. *)
Definition swap_text `{Cg} (ksy_struct : KsyStruct.t) (field : KsyStructField.t)
  : string :=
  match byteswap_field ksy_struct field "" with
  | Ok text => text
  | Err _ => ""
  end.

(** The struct of the byte-swap example: a scalar, an array of four, a
    string and an untyped run of bytes. *)
Definition image : KsyStruct.t :=
  KsyStruct.mk "image"
    (mk_ksy_struct_def (Some [entry_scalar; entry_array; entry_str; entry_bytes])
       (Some [])).

(** ** Computed expressions, as specified and as built *)

(** The rewriting of one token of a computed expression: a declared
    field name becomes a member access, an integer literal its decimal
    value, anything else stays. *)
Definition rewrite_token `{Cg} `{Utils} (struct_name : string) (names : list string)
  (tok : string) : string :=
  if Py.contains tok names then cn_arg struct_name ++ "->" ++ tok
  else if is_int_literal tok then Py.str (int_literal tok)
  else tok.

(** The tokens of a string split on white space: runs of white space
    separate, and no token is empty.  [cur] is the token being read. *)
Fixpoint words_from (cur s : string) : list string :=
  match s with
  | EmptyString => if String.eqb cur "" then [] else [cur]
  | String c s' =>
      if Py.isspace c then
        if String.eqb cur "" then words_from "" s' else cur :: words_from "" s'
      else words_from (cur ++ String c EmptyString) s'
  end.

Definition words (s : string) : list string := words_from "" s.

(** The computed expression in the words of the specification: the
    tokens between white space, each rewritten, joined by single
    spaces. *)
Definition cexpr_on_whitespace `{Cg} `{Utils} (struct_name : string)
  (names : list string) (e : string) : string :=
  Py.join " " (map (rewrite_token struct_name names) (words e)).

(** The struct with every [value] of its instances taken away. *)
Definition without_values (s : KsyStruct.t) : KsyStruct.t :=
  KsyStruct.mk (KsyStruct.name s)
    (mk_ksy_struct_def (key_seq (KsyStruct.ksy_struct s))
       (option_map
          (map (fun item : string * ksy_comp =>
                  (fst item, mk_ksy_comp (comp_key_enum (snd item)) None)))
          (key_instances (KsyStruct.ksy_struct s)))).

(** A struct whose only row is a computed field without [value]. *)
Definition only_computed : KsyStruct.t :=
  KsyStruct.mk "hdr"
    (mk_ksy_struct_def (Some []) (Some [("size", mk_ksy_comp None None)])).

(** A struct with no field at all. *)
Definition no_rows : KsyStruct.t :=
  KsyStruct.mk "hdr" (mk_ksy_struct_def (Some []) (Some [])).

(** ** Copy statements *)

(** The copy statement of one pair of fields, for a given cast text: a
    counted loop for an array, a memory copy for a string, else an
    assignment. *)
Definition copy_statement (arg_src arg_dest : string)
  (src_field dest_field : KsyStructField.t) (cast : string) : string :=
  let src_accessor := arg_src ++ "->" ++ KsyStructField.name src_field in
  let dest_accessor := arg_dest ++ "->" ++ KsyStructField.name dest_field in
  match KsyStructField.arr_len src_field with
  | Some k =>
      "for (int i = 0; i < " ++ Py.str k ++ "; ++i) { " ++ dest_accessor
      ++ "[i] = " ++ cast ++ src_accessor ++ "[i]; }"
  | None =>
      match KsyStructField.str_len src_field with
      | Some n =>
          "memcpy(" ++ dest_accessor ++ ", " ++ src_accessor ++ ", " ++ Py.str n ++ ");"
      | None => dest_accessor ++ " = " ++ cast ++ src_accessor ++ ";"
      end
  end.

(** The cast of a pair of fields: none when the two external types are
    the same, else the destination's type in brackets, without the
    pointer star. *)
Definition cast_text (src_field dest_field : KsyStructField.t) : string :=
  match KsyStructField.ctype src_field, KsyStructField.ctype dest_field with
  | Ok src_ctype, Ok dest_ctype =>
      Py.replace " *" ""
        (if String.eqb src_ctype dest_ctype then "" else "(" ++ dest_ctype ++ ") ")
  | _, _ => ""
  end.

(** The two assertions of the converter on a pair of fields. *)
Definition lengths_agree (src_field dest_field : KsyStructField.t) : bool :=
  match KsyStructField.arr_len src_field with
  | Some k => opt_eqb (Some k) (KsyStructField.arr_len dest_field)
  | None =>
      match KsyStructField.str_len src_field with
      | Some n => opt_eqb (Some n) (KsyStructField.str_len dest_field)
      | None => true
      end
  end.

(** A pair of fields the converter can copy: both have a C type and the
    assertions hold. *)
Definition copyable (src_field dest_field : KsyStructField.t) : bool :=
  is_ok (KsyStructField.ctype src_field)
  && is_ok (KsyStructField.ctype dest_field)
  && lengths_agree src_field dest_field.

(** What the converter's inner loop adds to the body on one pair of
    fields, and what the whole inner loop adds for one source field. *)
Definition pair_text (arg_src arg_dest : string) (skip_field_names : list string)
  (src_field dest_field : KsyStructField.t) : string :=
  match convert_pair arg_src arg_dest skip_field_names src_field dest_field "" with
  | Ok text => text
  | Err _ => ""
  end.

Definition copy_text (arg_src arg_dest : string) (skip_field_names : list string)
  (dest_fields : list KsyStructField.t) (src_field : KsyStructField.t) : string :=
  String.concat ""
    (map (pair_text arg_src arg_dest skip_field_names src_field) dest_fields).

(** Two headers that share [magic], [dim] and [descrip]; the second
    declares [dim] wider and [magic] longer. *)
Definition n1 : KsyStruct.t :=
  KsyStruct.mk "n1"
    (mk_ksy_struct_def
       (Some [ mk_ksy_field (Some "magic") None (Some 4%Z) None None None None;
               mk_ksy_field (Some "dim") (Some "s2") None None None None None;
               mk_ksy_field (Some "descrip") (Some "str") (Some 80%Z) None None None None;
               mk_ksy_field (Some "extents") (Some "s4") None None None None None ])
       (Some [])).

Definition n2 : KsyStruct.t :=
  KsyStruct.mk "n2"
    (mk_ksy_struct_def
       (Some [ mk_ksy_field (Some "magic") None (Some 8%Z) None None None None;
               mk_ksy_field (Some "dim") (Some "s8") None None None None None;
               mk_ksy_field (Some "descrip") (Some "str") (Some 80%Z) None None None None ])
       (Some [])).


(** ** The grammar, enum construction and the struct declaration *)

(** A variant of an enum in the schema: a bare identifier, or a dict
    read at the keys [id] and [doc]. *)
Inductive ksy_variant : Type :=
| VariantName (var_name : string)
| VariantDict (variant_id : option string) (variant_doc : option string).

(** The parsed schema, read at the keys [enums] and [types]; both are
    dicts, kept as the lists of their items in order. *)
Record ksy_grammar : Type := mk_ksy_grammar {
  key_enums : option (list (string * list (Z * ksy_variant)));
  key_types : option (list (string * ksy_struct_def))
}.

(** [d[key]] for a dict given by its items. *)
Fixpoint dict_get {A : Type} (d : list (string * A)) (key : string) : result A :=
  match d with
  | [] => Err KeyError
  | (k, v) :: d' => if String.eqb key k then Ok v else dict_get d' key
  end.

(** The body of the loop of [KsyEnum.__init__] over the items of the
    enum's dict; the state is [self.values]. *)
Definition enum_value_of (name_ : string) (item : Z * ksy_variant)
  (values_ : list KsyEnumValue.t) : result (list KsyEnumValue.t) :=
  let '(var_value, var_name) := item in
  match var_name with
  | VariantDict variant_id variant_doc =>
      var_ <- getitem variant_id ;;
      Ok (values_ ++ [KsyEnumValue.mk name_ var_ var_value variant_doc])%list
  | VariantName var_ =>
      Ok (values_ ++ [KsyEnumValue.mk name_ var_ var_value None])%list
  end.

(** [KsyEnum.__init__] *)
Definition KsyEnum_init (name_ : string) (ksy : ksy_grammar) : result KsyEnum.t :=
  enums <- getitem (key_enums ksy) ;;
  ksy_ <- dict_get enums name_ ;;
  values_ <- for_in ksy_ (enum_value_of name_) [] ;;
  Ok (KsyEnum.mk name_ values_).

Module KsyGrammar.

(** The grammar object: what [__init__] loads from the file. *)
Record t : Type := mk { ksy : ksy_grammar }.

(** [for enum in self.iter_enums(): body] *)
Definition iter_enums {S : Type} (self : t) (body : KsyEnum.t -> S -> result S)
  (s : S) : result S :=
  enums <- getitem (key_enums (ksy self)) ;;
  for_in (map fst enums)
    (fun enum_name s' => enum <- KsyEnum_init enum_name (ksy self) ;; body enum s') s.

End KsyGrammar.

(** [list(self.iter_enums())] *)
Definition enums_of (self : KsyGrammar.t) : result (list KsyEnum.t) :=
  KsyGrammar.iter_enums self (fun enum acc => Ok (acc ++ [enum])%list) [].

(** [cg.CStruct] *)
Record CStruct : Type := mkCStruct {
  struct_name : string;
  struct_fields : list string
}.

(** The helper of [cg] that the declaration calls: [cg.docstring(text)]
    with the text given by position. *)
Class CgDoc : Type := {
  docstring : string -> string
}.

Section Declarations.
Context `{Cg} `{CgDoc}.

(** The body of the loop of [build_struct]; the state is [re.fields].
    The enum note is only added to a doc string that is there. *)
Definition struct_member (field : KsyStructField.t) (fields : list string)
  : result (list string) :=
  let cdoc :=
    match KsyStructField.doc field with
    | Some d =>
        match KsyStructField.enum field with
        | Some en => d ++ (" (enum: " ++ cn_enum_value en "*" ++ ")")
        | None => d
        end
    | None => ""
    end in
  cdef_ <- KsyStructField.cdef field ;;
  Ok (fields ++ [(docstring cdoc ++ Py.nl ++ cdef_)%string])%list.

Definition build_struct (ksy_struct : KsyStruct.t) : result CStruct :=
  fields <- KsyStruct.iter_fields ksy_struct struct_member [] ;;
  Ok (mkCStruct (KsyStruct.name ksy_struct) fields).

End Declarations.

(** The number of arguments a row of the printer passes, and the number
    of conversions its format fragment asks for. *)
Definition row_arguments (row : print_row) : nat := length (snd row).
Definition row_conversions (row : print_row) : nat := occurrences "%" (snd (fst row)).

(** The labels of the printer's rows. *)
Definition row_label (row : print_row) : string := fst (fst row).

(** A schema with two enums, the second with a documented variant. *)
Definition sample_grammar : KsyGrammar.t :=
  KsyGrammar.mk
    (mk_ksy_grammar
       (Some [ ("color", [ (0%Z, VariantName "RED"); (1%Z, VariantName "GREEN") ]);
               ("unit", [ (2%Z, VariantDict (Some "MM") (Some "millimetre")) ]) ])
       (Some [])).

(** A schema whose enum has a variant dict without [id]. *)
Definition grammar_without_id : KsyGrammar.t :=
  KsyGrammar.mk
    (mk_ksy_grammar (Some [ ("unit", [ (2%Z, VariantDict None (Some "millimetre")) ]) ])
       (Some [])).

Definition plain_cg_doc : CgDoc := {|
  docstring := fun s => "/** " ++ s ++ " */"
|}.

(** The identifier of a variant, when it has one. *)
Definition variant_var (v : ksy_variant) : option string :=
  match v with
  | VariantName var_ => Some var_
  | VariantDict variant_id _ => variant_id
  end.

(** The documentation of a variant. *)
Definition variant_doc_of (v : ksy_variant) : option string :=
  match v with
  | VariantName _ => None
  | VariantDict _ variant_doc => variant_doc
  end.

(** The value an enum entry of the schema stands for. *)
Definition value_of_item (name_ : string) (item : Z * ksy_variant)
  : option KsyEnumValue.t :=
  option_map (fun var_ => KsyEnumValue.mk name_ var_ (fst item) (variant_doc_of (snd item)))
    (variant_var (snd item)).

(** The text of the doc comment of a struct member. *)
Definition member_doc `{Cg} (field : KsyStructField.t) : string :=
  match KsyStructField.doc field, KsyStructField.enum field with
  | Some d, Some en => d ++ " (enum: " ++ cn_enum_value en "*" ++ ")"
  | Some d, None => d
  | None, _ => ""
  end.

(** The struct of the byte-swap example with an enum-tagged, documented
    field in front. *)
Definition tagged : KsyStruct.t :=
  KsyStruct.mk "tagged"
    (mk_ksy_struct_def
       (Some [ mk_ksy_field (Some "kind") (Some "u1") None None None (Some "color")
                 (Some "pixel kind");
               entry_array; entry_str ])
       (Some [ ("count", mk_ksy_comp None (Some "crc * 4"));
               ("tone", mk_ksy_comp (Some "color") (Some "kind")) ])).

(** A struct whose second field has an unknown type tag. *)
Definition with_unknown_tag : KsyStruct.t :=
  KsyStruct.mk "bad" (mk_ksy_struct_def (Some [entry_scalar; entry_unknown_tag]) None).


(** A struct with one sequence field and no [instances] key. *)
Definition seq_only : KsyStruct.t :=
  KsyStruct.mk "hdr" (mk_ksy_struct_def (Some [entry_scalar]) None).

(** The number of conversions and of arguments of the printer's row for
    a sequence field: the format looks at the enum first, the arguments
    at the array first. *)
Definition field_conversions (f : KsyStructField.t) : nat :=
  match KsyStructField.enum f, KsyStructField.arr_len f with
  | Some _, _ => 2
  | None, Some k => Z.to_nat k
  | None, None => 1
  end.

Definition field_arguments (f : KsyStructField.t) : nat :=
  match KsyStructField.arr_len f, KsyStructField.enum f with
  | Some k, _ => Z.to_nat k
  | None, Some _ => 2
  | None, None => 1
  end.

(** * Properties *)

(** ** The Python built-ins on examples *)

Example split_single_spaces :
  Py.split " " "a  b" = ["a"; ""; "b"].
Proof. reflexivity. Qed.

Example strip_both_ends :
  Py.strip "  a b  " = "a b".
Proof. reflexivity. Qed.

Example replace_pointer_star :
  Py.replace " *" "" "(uint8_t *) " = "(uint8_t) ".
Proof. reflexivity. Qed.

Example int_of_suffix :
  Py.int "8" = Ok 8%Z /\ Py.int "tr" = Err ValueError /\ Py.int "" = Err ValueError.
Proof. repeat split; reflexivity. Qed.

(** ** Loops *)

(** A loop over a generator of fields that all build is the loop over
    the built fields. *)
Lemma for_in_built {S : Type} (entries : list ksy_field) (fs : list KsyStructField.t)
  (body : KsyStructField.t -> S -> result S) (s : S) :
  comprehension KsyStructField.init entries = Ok fs ->
  for_in entries (fun entry s' => field <- KsyStructField.init entry ;; body field s') s
  = for_in fs body s.
Proof.
  revert fs s. induction entries as [|e entries IH]; intros fs s Hfs; simpl in *.
  - injection Hfs as <-. reflexivity.
  - destruct (KsyStructField.init e) as [f|err]; simpl in *; [|discriminate].
    destruct (comprehension KsyStructField.init entries) as [fs'|err]; simpl in *;
      [|discriminate].
    injection Hfs as <-. simpl.
    destruct (body f s) as [s'|err]; simpl; [|reflexivity].
    apply IH. reflexivity.
Qed.

Lemma iter_fields_built {S : Type} (self : KsyStruct.t) (fs : list KsyStructField.t)
  (body : KsyStructField.t -> S -> result S) (s : S) :
  fields_of self = Ok fs ->
  KsyStruct.iter_fields self body s = for_in fs body s.
Proof.
  unfold fields_of, KsyStruct.iter_fields.
  destruct (key_seq (KsyStruct.ksy_struct self)) as [entries|]; simpl; [|discriminate].
  apply for_in_built.
Qed.

(** ** Enumerations *)

(** C8: the reverse lookup reads the first declared value whatever the
    enum: with at least one value the function is generated, with none
    the generation raises [IndexError]. *)
Theorem cdynamic_from_name_needs_a_value `{Cg} (e : KsyEnum.t) :
  (KsyEnum.values e <> [] -> exists f, KsyEnum.cdynamic_from_name e = Ok f) /\
  (KsyEnum.values e = [] -> KsyEnum.cdynamic_from_name e = Err IndexError).
Proof.
  unfold KsyEnum.cdynamic_from_name.
  destruct (KsyEnum.values e) as [|v0 rest]; simpl; split; intros Hv.
  - contradiction.
  - reflexivity.
  - eexists. reflexivity.
  - discriminate.
Qed.

Lemma cdynamic_from_name_needs_a_value_witness :
  (exists f, @KsyEnum.cdynamic_from_name plain_cg color = Ok f) /\
  @KsyEnum.cdynamic_from_name plain_cg no_values = Err IndexError.
Proof.
  split.
  - apply (proj1 (@cdynamic_from_name_needs_a_value plain_cg color)).
    simpl. discriminate.
  - apply (proj2 (@cdynamic_from_name_needs_a_value plain_cg no_values)).
    reflexivity.
Defined.

(** C5: the generated reverse lookup tests the first declared name
    twice: once in the opening [if], and again in the first [else if],
    because the chain of [else if] runs over all the values and not over
    the values after the first. *)
Theorem cdynamic_from_name_tests_first_name_twice `{Cg}
  (n : string) (v0 : KsyEnumValue.t) (rest : list KsyEnumValue.t) :
  exists f,
    KsyEnum.cdynamic_from_name (KsyEnum.mk n (v0 :: rest)) = Ok f /\
    body f =
      Py.join Py.nl
        [ "if (" ++ cn_arg n ++ " == NULL) return -1;";
          strcmp_test n v0;
          Py.join Py.nl
            (cindent ("else " ++ strcmp_test n v0) 1
             :: map (fun v => cindent ("else " ++ strcmp_test n v) 1) rest);
          "return -1;" ].
Proof.
  eexists. split; reflexivity.
Qed.

(** The enum with the single value RED: its name is compared twice. *)
Example cdynamic_from_name_single_value :
  option_map body
    (match @KsyEnum.cdynamic_from_name plain_cg (KsyEnum.mk "color" [red]) with
     | Ok f => Some f
     | Err _ => None
     end)
  = Some ("if (color == NULL) return -1;" ++ Py.nl
          ++ "if (strcmp(color, color_RED_STR) == 0) return color_RED;" ++ Py.nl
          ++ "  else if (strcmp(color, color_RED_STR) == 0) return color_RED;" ++ Py.nl
          ++ "return -1;").
Proof. reflexivity. Qed.

(** ** Sequence fields *)

Lemma unknown_tag_no_type (ty : string) :
  ~ In ty KSY_BYTESWAPPABLE -> lookup KSY2C_TYPE ty = None.
Proof.
  intros Hty. unfold KSY2C_TYPE, lookup.
  repeat match goal with
         | |- context [String.eqb ty ?k] =>
             destruct (String.eqb_spec ty k) as [->|_];
             [exfalso; apply Hty; simpl; tauto|]
         end.
  reflexivity.
Qed.

Lemma unknown_tag_no_swap (ty : string) :
  ~ In ty KSY_BYTESWAPPABLE -> Py.contains ty KSY_BYTESWAPPABLE = false.
Proof.
  intros Hty. unfold Py.contains, KSY_BYTESWAPPABLE, existsb.
  repeat match goal with
         | |- context [String.eqb ty ?k] =>
             destruct (String.eqb_spec ty k) as [->|_];
             [exfalso; apply Hty; simpl; tauto|]
         end.
  reflexivity.
Qed.

(** C2, as the code has it: building a field never looks at the tag, so
    a tag that is neither one of the ten numeric tags nor the string tag
    builds a field; what raises [KeyError] is the later lookup of the
    tag by [cdef] and [ctype], and the byte swapper's eligibility test
    just answers no. *)
Theorem unknown_tag_raises_at_lookup (e : ksy_field) (n ty : string) :
  key_id e = Some n ->
  key_type e = Some ty ->
  ~ In ty KSY_BYTESWAPPABLE ->
  ty <> "str" ->
  (key_repeat e = None \/ key_repeat_expr e <> None) ->
  exists f,
    KsyStructField.init e = Ok f /\
    KsyStructField.type f = ty /\
    KsyStructField.cdef f = Err KeyError /\
    KsyStructField.ctype f = Err KeyError /\
    KsyStructField.needs_byteswap f = false.
Proof.
  intros Hid Hty Hten Hstr Hrep.
  unfold KsyStructField.init. rewrite Hid, Hty. simpl.
  apply String.eqb_neq in Hstr. rewrite Hstr.
  assert (Hlens : exists lens,
             match key_repeat e with
             | Some _ => count <- getitem (key_repeat_expr e) ;; Ok (None, Some count)
             | None => Ok (None, None)
             end = Ok (@None Z, lens)).
  { destruct (key_repeat e) as [r|].
    - destruct Hrep as [Hr|Hr]; [discriminate|].
      destruct (key_repeat_expr e) as [k|]; [|contradiction].
      simpl. eexists. reflexivity.
    - eexists. reflexivity. }
  destruct Hlens as [lens ->]. simpl.
  eexists. split; [reflexivity|].
  unfold KsyStructField.cdef, KsyStructField.ctype, KsyStructField.needs_byteswap.
  cbn [KsyStructField.type KsyStructField.arr_len KsyStructField.str_len
       KsyStructField.name fst snd].
  rewrite Hstr, (unknown_tag_no_type ty Hten), (unknown_tag_no_swap ty Hten).
  destruct lens; repeat split; reflexivity.
Qed.

Lemma unknown_tag_raises_at_lookup_witness :
  exists f,
    KsyStructField.init entry_unknown_tag = Ok f /\
    KsyStructField.type f = "foo" /\
    KsyStructField.cdef f = Err KeyError /\
    KsyStructField.ctype f = Err KeyError /\
    KsyStructField.needs_byteswap f = false.
Proof.
  apply (unknown_tag_raises_at_lookup entry_unknown_tag "x" "foo").
  - reflexivity.
  - reflexivity.
  - simpl. intros Hin. repeat destruct Hin as [Hin|Hin]; try discriminate Hin.
    exact Hin.
  - discriminate.
  - left. reflexivity.
Defined.

(** C2 as stated fails: a field with the unknown tag [foo] is built
    without any error. *)
Lemma unknown_tag_is_constructed :
  ~ In "foo" KSY_BYTESWAPPABLE /\ "foo" <> "str" /\
  KsyStructField.init entry_unknown_tag
  = Ok (KsyStructField.mk "x" "foo" None None None None).
Proof.
  split; [|split].
  - simpl. intros Hin. repeat destruct Hin as [Hin|Hin]; try discriminate Hin.
    exact Hin.
  - discriminate.
  - reflexivity.
Qed.

(** C3, as the code has it: what makes a typed field an array is the
    [repeat] key; the count is then read at [repeat-expr].  An untyped
    entry is an array of [u1] of the declared size, the string tag sets
    the string length from the declared size, and any other entry is a
    scalar, whether or not it carries a [repeat-expr]. *)
Theorem init_sets_lengths (e : ksy_field) (n : string) :
  key_id e = Some n ->
  (forall size,
      key_type e = None -> key_size e = Some size ->
      KsyStructField.init e
      = Ok (KsyStructField.mk n "u1" None (Some size) (key_enum e) (key_doc e))) /\
  (forall size,
      key_type e = Some "str" -> key_size e = Some size ->
      KsyStructField.init e
      = Ok (KsyStructField.mk n "str" (Some size) None (key_enum e) (key_doc e))) /\
  (forall ty r count,
      key_type e = Some ty -> ty <> "str" ->
      key_repeat e = Some r -> key_repeat_expr e = Some count ->
      KsyStructField.init e
      = Ok (KsyStructField.mk n ty None (Some count) (key_enum e) (key_doc e))) /\
  (forall ty,
      key_type e = Some ty -> ty <> "str" -> key_repeat e = None ->
      KsyStructField.init e
      = Ok (KsyStructField.mk n ty None None (key_enum e) (key_doc e))).
Proof.
  intros Hid. unfold KsyStructField.init. rewrite Hid. simpl.
  repeat split.
  - intros size Hty Hsize. rewrite Hty, Hsize. reflexivity.
  - intros size Hty Hsize. rewrite Hty, Hsize. reflexivity.
  - intros ty r count Hty Hstr Hr Hcount. rewrite Hty, Hr, Hcount.
    apply String.eqb_neq in Hstr. rewrite Hstr. reflexivity.
  - intros ty Hty Hstr Hr. rewrite Hty, Hr.
    apply String.eqb_neq in Hstr. rewrite Hstr. reflexivity.
Qed.

Lemma init_sets_lengths_witness :
  KsyStructField.init entry_bytes
  = Ok (KsyStructField.mk "magic" "u1" None (Some 4%Z) None None) /\
  KsyStructField.init entry_str
  = Ok (KsyStructField.mk "descrip" "str" (Some 80%Z) None None None) /\
  KsyStructField.init entry_array
  = Ok (KsyStructField.mk "pixels" "u4" None (Some 4%Z) None None) /\
  KsyStructField.init entry_count_only
  = Ok (KsyStructField.mk "x" "u4" None None None None).
Proof.
  split; [|split; [|split]].
  - apply (proj1 (init_sets_lengths entry_bytes "magic" eq_refl) 4%Z);
      reflexivity.
  - apply (proj1 (proj2 (init_sets_lengths entry_str "descrip" eq_refl)) 80%Z);
      reflexivity.
  - apply (proj1 (proj2 (proj2 (init_sets_lengths entry_array "pixels" eq_refl)))
             "u4" "expr" 4%Z); try reflexivity; discriminate.
  - apply (proj2 (proj2 (proj2 (init_sets_lengths entry_count_only "x" eq_refl)))
             "u4"); try reflexivity; discriminate.
Defined.

(** A key that is read and is absent raises [KeyError]: [id] always,
    [size] for an untyped entry or a string, [repeat-expr] under
    [repeat]. *)
Lemma init_missing_key (e : ksy_field) :
  key_id e = None
  \/ (key_size e = None /\ (key_type e = None \/ key_type e = Some "str"))
  \/ (key_repeat_expr e = None /\ key_repeat e <> None /\
      exists ty, key_type e = Some ty /\ ty <> "str") ->
  KsyStructField.init e = Err KeyError.
Proof.
  unfold KsyStructField.init.
  intros [Hid|[[Hsize Hty]|(Hcount & Hrep & ty & Hty & Hstr)]].
  - rewrite Hid. reflexivity.
  - destruct (key_id e); [|reflexivity]. cbn [getitem bind].
    destruct Hty as [->| ->]; rewrite Hsize; reflexivity.
  - destruct (key_id e); [|reflexivity]. cbn [getitem bind].
    rewrite Hty, Hcount. apply String.eqb_neq in Hstr. rewrite Hstr.
    destruct (key_repeat e); [reflexivity | contradiction].
Qed.

(** C3 as stated fails: an entry that carries a [repeat-expr] and no
    [repeat] key is built as a scalar, its count is not read. *)
Lemma repeat_expr_alone_is_ignored :
  key_repeat_expr entry_count_only = Some 4%Z /\
  exists f,
    KsyStructField.init entry_count_only = Ok f /\
    KsyStructField.arr_len f = None.
Proof.
  split; [reflexivity|]. eexists. split; reflexivity.
Qed.

(** ** Strings *)

Lemma append_nil_r (s : string) : s ++ "" = s.
Proof. induction s as [|c s IH]; simpl; [reflexivity | now rewrite IH]. Qed.

Lemma append_assoc (a b c : string) : (a ++ b) ++ c = a ++ (b ++ c).
Proof. induction a as [|x a IH]; simpl; [reflexivity | now rewrite IH]. Qed.

Lemma concat_empty_cons (x : string) (l : list string) :
  String.concat "" (x :: l) = x ++ String.concat "" l.
Proof. destruct l; simpl; [now rewrite append_nil_r | reflexivity]. Qed.

Lemma comprehension_const {A B : Type} (b : B) (l : list A) :
  comprehension (fun _ => Ok b) l = Ok (repeat b (length l)).
Proof.
  induction l as [|a l IH]; simpl; [reflexivity|]. rewrite IH. reflexivity.
Qed.

Lemma range_length (k : Z) : length (Py.range k) = Z.to_nat k.
Proof. unfold Py.range. now rewrite length_map, length_seq. Qed.

(** The format specifiers of the table. *)
Lemma fprint_specifiers (ty spec : string) :
  lookup KSY2C_FPRINT ty = Some spec ->
  In spec ["%i"; "%u"; "%li"; "%lu"; "%f"].
Proof.
  unfold KSY2C_FPRINT, lookup.
  repeat match goal with
         | |- context [String.eqb ty ?k] => destruct (String.eqb ty k)
         end;
    intros Hs; try discriminate Hs; injection Hs as <-; simpl; tauto.
Qed.


(** ** The print format of an array and the byte swapper *)

(** The ten tags of the swap list, and their widths. *)
Lemma swappable_tags (ty : string) :
  Py.contains ty KSY_BYTESWAPPABLE = true ->
  In ty ["s1"; "u1"; "s2"; "u2"; "s4"; "u4"; "s8"; "u8"; "f4"; "f8"].
Proof.
  unfold Py.contains, KSY_BYTESWAPPABLE, existsb.
  repeat match goal with
         | |- context [String.eqb ty ?k] =>
             destruct (String.eqb_spec ty k) as [->|_]; [intros _; simpl; tauto|]
         end.
  discriminate.
Qed.

Ltac each_tag H :=
  simpl in H;
  repeat (destruct H as [H|H]; [subst|]); try contradiction.

(** The loop body of the byte swapper never raises, and only ever adds
    text after what is there. *)
Lemma byteswap_field_appends `{Cg} (s : KsyStruct.t) (f : KsyStructField.t)
  (acc : string) :
  byteswap_field s f acc = Ok (acc ++ swap_text s f).
Proof.
  unfold swap_text, byteswap_field.
  destruct (KsyStructField.needs_byteswap f) eqn:Hswap; simpl.
  - unfold KsyStructField.needs_byteswap in Hswap.
    apply swappable_tags in Hswap.
    unfold KsyStructField.nbytes.
    destruct f as [n ty sl al en dc]; cbn [KsyStructField.type] in *.
    each_tag Hswap; simpl; try (now rewrite append_nil_r);
      destruct al; reflexivity.
  - now rewrite append_nil_r.
Qed.

Lemma byteswap_loop `{Cg} (s : KsyStruct.t) (fs : list KsyStructField.t)
  (acc : string) :
  for_in fs (byteswap_field s) acc
  = Ok (acc ++ String.concat "" (map (swap_text s) fs)).
Proof.
  revert acc. induction fs as [|f fs IH]; intros acc.
  - simpl. now rewrite append_nil_r.
  - cbn [for_in map]. rewrite byteswap_field_appends. simpl bind.
    rewrite IH, concat_empty_cons, append_assoc. reflexivity.
Qed.



(** C4 as stated fails: an array of two enum-tagged [u4] values has the
    print format of an enum, in which the scalar specifier [%u] does not
    occur at all. *)
Lemma enum_array_format_has_no_repetition :
  exists f,
    KsyStructField.init entry_enum_array = Ok f /\
    KsyStructField.arr_len f = Some 2%Z /\
    lookup KSY2C_FPRINT (KsyStructField.type f) = Some "%u" /\
    KsyStructField.ctype_fprint f = Ok "%s (%i)" /\
    occurrences "%u" "%s (%i)" = 0.
Proof.
  eexists. repeat split; reflexivity.
Qed.


(** C7: in the generated byte-swap function, a string field and a
    one-byte numeric field add nothing, and so does an untyped entry,
    built as an array of [u1]; a swap-eligible scalar of width [w] above
    one adds exactly one assignment that swaps it in place with the
    primitive of [w * 8] bits; and the body is the texts of the fields
    one after the other in declaration order. *)
Theorem byteswap_statements `{Cg} (s : KsyStruct.t) (fs : list KsyStructField.t) :
  fields_of s = Ok fs ->
  (forall f, KsyStructField.type f = "str" -> swap_text s f = "") /\
  (forall f, In (KsyStructField.type f) ["s1"; "u1"] -> swap_text s f = "") /\
  (forall e f,
      key_type e = None -> KsyStructField.init e = Ok f -> swap_text s f = "") /\
  (forall f w,
      KsyStructField.needs_byteswap f = true ->
      KsyStructField.nbytes f = Ok w ->
      (1 < w)%Z ->
      KsyStructField.arr_len f = None ->
      let field_access := cn_arg (KsyStruct.name s) ++ "->" ++ KsyStructField.name f in
      swap_text s f
      = Py.nl ++ field_access ++ " = bswap" ++ Py.str (w * 8) ++ "("
        ++ field_access ++ ");") /\
  exists fn,
    build_byteswap_struct s = Ok fn /\
    body fn = String.concat "" (map (swap_text s) fs).
Proof.
  intros Hfs.
  assert (Hone : forall f, In (KsyStructField.type f) ["s1"; "u1"] ->
                           swap_text s f = "").
  { intros [n ty sl al en dc] Hty. cbn [KsyStructField.type] in Hty.
    each_tag Hty; reflexivity. }
  repeat split.
  - intros [n ty sl al en dc] Hty. cbn [KsyStructField.type] in Hty. subst ty.
    reflexivity.
  - exact Hone.
  - intros e f Hty Hinit. apply Hone.
    unfold KsyStructField.init in Hinit. rewrite Hty in Hinit.
    destruct (key_id e); [|discriminate]. destruct (key_size e); [|discriminate].
    simpl in Hinit. injection Hinit as <-. simpl. tauto.
  - intros f w Hswap Hw Hwide Harr field_access.
    unfold swap_text, byteswap_field. rewrite Hswap, Hw, Harr. cbn [negb bind].
    destruct (Z.eqb_spec w 1) as [->|_]; [lia|]. reflexivity.
  - unfold build_byteswap_struct.
    rewrite (iter_fields_built s fs _ _ Hfs), byteswap_loop.
    eexists. split; reflexivity.
Qed.

Lemma byteswap_statements_witness :
  swap_text (H := plain_cg) image
    (KsyStructField.mk "descrip" "str" (Some 80%Z) None None None) = "" /\
  swap_text (H := plain_cg) image
    (KsyStructField.mk "magic" "u1" None (Some 4%Z) None None) = "" /\
  swap_text (H := plain_cg) image (KsyStructField.mk "crc" "u4" None None None None)
  = Py.nl ++ "image->crc = bswap32(image->crc);" /\
  exists fn,
    @build_byteswap_struct plain_cg image = Ok fn /\
    body fn
    = Py.nl ++ "image->crc = bswap32(image->crc);"
      ++ Py.nl ++ "  for (int i = 0; i < 4; ++i) {" ++ Py.nl
      ++ "    image->pixels[i] = bswap32(image->pixels[i]);" ++ Py.nl
      ++ "  }".
Proof.
  pose proof (@byteswap_statements plain_cg image _ eq_refl)
    as (Hstr & Hone & Huntyped & Hscalar & Hbody).
  split; [|split; [|split]].
  - apply Hstr. reflexivity.
  - apply (Huntyped entry_bytes); reflexivity.
  - apply (Hscalar (KsyStructField.mk "crc" "u4" None None None None) 4%Z);
      reflexivity.
  - exact Hbody.
Defined.

(** ** Computed fields *)

Lemma rstrip_trailing_space (s : string) : Py.rstrip (s ++ " ") = Py.rstrip s.
Proof.
  induction s as [|c s IH]; [reflexivity|].
  cbn [append Py.rstrip]. rewrite IH. reflexivity.
Qed.

Lemma split_cons (sep : ascii) (s : string) :
  exists tok toks, Py.split sep s = tok :: toks.
Proof.
  destruct s as [|c s]; simpl; [eauto|].
  destruct (Ascii.eqb c sep); [eauto|].
  destruct (Py.split sep s); eauto.
Qed.

(** Tokens each followed by a space are the tokens joined by spaces,
    and one more space. *)
Lemma concat_trailing_spaces (tok : string) (toks : list string) :
  String.concat "" (map (fun t => t ++ " ") (tok :: toks))
  = Py.join " " (tok :: toks) ++ " ".
Proof.
  revert tok. induction toks as [|t toks IH]; intros tok.
  - simpl. reflexivity.
  - change (map (fun t0 => t0 ++ " ") (tok :: t :: toks))
      with ((tok ++ " ") :: map (fun t0 => t0 ++ " ") (t :: toks)).
    rewrite concat_empty_cons, IH.
    change (Py.join " " (tok :: t :: toks)) with (tok ++ " " ++ Py.join " " (t :: toks)).
    now rewrite !append_assoc.
Qed.

Lemma field_names_loop (fs : list KsyStructField.t) (acc : list string) :
  for_in fs (fun f names => Ok (names ++ [KsyStructField.name f])%list) acc
  = Ok (acc ++ map KsyStructField.name fs)%list.
Proof.
  revert acc. induction fs as [|f fs IH]; intros acc; simpl.
  - now rewrite app_nil_r.
  - rewrite IH, <- app_assoc. reflexivity.
Qed.

Lemma field_names_built (s : KsyStruct.t) (fs : list KsyStructField.t) :
  fields_of s = Ok fs ->
  KsyStruct.field_names s = Ok (map KsyStructField.name fs).
Proof.
  intros Hfs. unfold KsyStruct.field_names.
  rewrite (iter_fields_built s fs _ _ Hfs). apply field_names_loop.
Qed.

Lemma for_in_ext {A S : Type} (l : list A) (body body' : A -> S -> result S) (s : S) :
  (forall a s', body a s' = body' a s') ->
  for_in l body s = for_in l body' s.
Proof.
  intros Hext. revert s. induction l as [|a l IH]; intros s; simpl; [reflexivity|].
  rewrite Hext. destruct (body' a s); simpl; [apply IH | reflexivity].
Qed.

Lemma for_in_map {A B S : Type} (g : A -> B) (l : list A)
  (body : B -> S -> result S) (s : S) :
  for_in (map g l) body s = for_in l (fun a s' => body (g a) s') s.
Proof.
  revert s. induction l as [|a l IH]; intros s; simpl; [reflexivity|].
  destruct (body (g a) s); simpl; [apply IH | reflexivity].
Qed.

Section Computed.
Context `{Cg} `{Utils}.

Lemma cexpr_loop (s : KsyStruct.t) (fs : list KsyStructField.t)
  (toks : list string) (acc : string) :
  fields_of s = Ok fs ->
  for_in toks (cexpr_token s) acc
  = Ok (acc
        ++ String.concat ""
             (map (fun t =>
                     rewrite_token (KsyStruct.name s) (map KsyStructField.name fs) t
                     ++ " ")
                  toks)).
Proof.
  intros Hfs. revert acc. induction toks as [|tok toks IH]; intros acc.
  - simpl. now rewrite append_nil_r.
  - cbn [for_in map]. unfold cexpr_token at 1.
    rewrite (field_names_built s fs Hfs). cbn [bind].
    rewrite IH, concat_empty_cons. f_equal. unfold rewrite_token.
    destruct (Py.contains tok (map KsyStructField.name fs));
      [|destruct (is_int_literal tok)]; now rewrite !append_assoc.
Qed.

(** C6, as the code has it: the expression is cut at every single space
    character, so two spaces in a row give an empty token and other
    white space does not separate; each token is rewritten with the
    stated precedence (field name, then integer literal, then itself);
    the rewritten tokens are joined by single spaces, and white space at
    both ends of the result is stripped. *)
Theorem cexpr_splits_at_single_spaces (self : KsyStructCompField.t)
  (s : KsyStruct.t) (e : string) (fs : list KsyStructField.t) :
  KsyStructCompField.expr self = Some e ->
  fields_of s = Ok fs ->
  cexpr self s
  = Ok (Py.strip
          (Py.join " "
             (map (rewrite_token (KsyStruct.name s) (map KsyStructField.name fs))
                (Py.split " " e)))).
Proof.
  intros He Hfs. unfold cexpr. rewrite He. cbn [bind].
  rewrite (cexpr_loop s fs _ _ Hfs). cbn [bind append].
  destruct (split_cons " " e) as (tok & toks & ->).
  rewrite <- (map_map (rewrite_token _ _) (fun t => t ++ " ")).
  change (map (rewrite_token (KsyStruct.name s) (map KsyStructField.name fs))
            (tok :: toks))
    with (rewrite_token (KsyStruct.name s) (map KsyStructField.name fs) tok
          :: map (rewrite_token (KsyStruct.name s) (map KsyStructField.name fs)) toks).
  rewrite concat_trailing_spaces.
  unfold Py.strip. now rewrite rstrip_trailing_space.
Qed.

(** C10, as the code has it: a computed field built from an entry with
    no [value] has no expression; [cexpr] raises on it, and so does the
    generation of the accessor functions of any struct that has such an
    instance.  The printer never reads the expression: its result is
    the same with every [value] taken away. *)
Theorem missing_value_fails_accessors (s : KsyStruct.t) (n : string) (c : ksy_comp) :
  comp_key_value c = None ->
  KsyStructCompField.expr (KsyStructCompField.init n c) = None /\
  cexpr (KsyStructCompField.init n c) s = Err AttributeError /\
  (forall items,
      key_instances (KsyStruct.ksy_struct s) = Some items ->
      In (n, c) items ->
      exists err, build_comp_field_funcs s = Err err) /\
  (forall printf_alias enum_unknown,
      build_print_struct s printf_alias enum_unknown
      = build_print_struct (without_values s) printf_alias enum_unknown).
Proof.
  intros Hc.
  assert (Hcexpr : cexpr (KsyStructCompField.init n c) s = Err AttributeError).
  { unfold cexpr, KsyStructCompField.init. cbn [KsyStructCompField.expr].
    rewrite Hc. reflexivity. }
  split; [exact Hc|]. split; [exact Hcexpr|]. split.
  - intros items Hitems Hin.
    unfold build_comp_field_funcs, KsyStruct.iter_comp_fields.
    rewrite Hitems. cbn [getitem bind]. clear Hitems.
    generalize (@nil CFunc) as funcs.
    induction items as [|item items IH]; intros funcs; [destruct Hin|].
    cbn [for_in]. unfold comp_field_func at 1. destruct Hin as [->|Hin].
    + cbn [fst snd]. rewrite Hcexpr. eexists. reflexivity.
    + destruct (cexpr (KsyStructCompField.init (fst item) (snd item)) s) as [x|err].
      * cbn [bind]. apply IH. exact Hin.
      * eexists. reflexivity.
  - intros printf_alias enum_unknown.
    unfold build_print_struct, KsyStruct.iter_fields, KsyStruct.iter_comp_fields,
      without_values.
    cbn [KsyStruct.name KsyStruct.ksy_struct key_seq key_instances].
    destruct (key_seq (KsyStruct.ksy_struct s)) as [entries|]; [|reflexivity].
    cbn [getitem bind].
    destruct (for_in entries _ _) as [st|err]; [|reflexivity].
    cbn [bind].
    destruct (key_instances (KsyStruct.ksy_struct s)) as [items|]; [|reflexivity].
    cbn [option_map getitem bind].
    rewrite for_in_map. reflexivity.
Qed.

End Computed.

Lemma cexpr_splits_at_single_spaces_witness :
  @cexpr plain_cg plain_utils (KsyStructCompField.mk "next" None (Some "crc + 0010"))
    image
  = Ok "image->crc + 10".
Proof.
  exact (@cexpr_splits_at_single_spaces plain_cg plain_utils
           (KsyStructCompField.mk "next" None (Some "crc + 0010")) image
           "crc + 0010" _ eq_refl eq_refl).
Defined.

(** C6 as stated fails: with two spaces before the operator the code
    keeps both, where tokens cut at white space and joined by single
    spaces would leave one. *)
Lemma cexpr_keeps_double_space :
  @cexpr plain_cg plain_utils (KsyStructCompField.mk "next" None (Some "crc  + 1"))
    image
  = Ok "image->crc  + 1" /\
  @cexpr_on_whitespace plain_cg plain_utils "image"
    ["crc"; "pixels"; "descrip"; "magic"] "crc  + 1"
  = "image->crc + 1" /\
  "image->crc  + 1" <> "image->crc + 1".
Proof.
  split; [reflexivity|]. split; [reflexivity|]. discriminate.
Qed.

Lemma missing_value_fails_accessors_witness :
  KsyStructCompField.expr (KsyStructCompField.init "size" (mk_ksy_comp None None))
  = None /\
  @cexpr plain_cg plain_utils
    (KsyStructCompField.init "size" (mk_ksy_comp None None)) only_computed
  = Err AttributeError /\
  exists err, @build_comp_field_funcs plain_cg plain_utils only_computed = Err err.
Proof.
  pose proof (@missing_value_fails_accessors plain_cg plain_utils only_computed
                "size" (mk_ksy_comp None None) eq_refl)
    as (Hexpr & Hcexpr & Hfuncs & _).
  split; [exact Hexpr|]. split; [exact Hcexpr|].
  apply (Hfuncs [("size", mk_ksy_comp None None)]).
  - reflexivity.
  - simpl. left. reflexivity.
Defined.

(** C10 as stated fails for the printer: on a struct whose only
    instance has no [value], the accessor functions are not generated
    but the print function is, with a row that calls the accessor. *)
Lemma printer_ignores_missing_value :
  comp_key_value (mk_ksy_comp None None) = None /\
  @build_comp_field_funcs plain_cg plain_utils only_computed = Err AttributeError /\
  option_map body
    (match @build_print_struct plain_cg only_computed "printf" "<unknown>" with
     | Ok fn => Some fn
     | Err _ => None
     end)
  = Some "printf(*size : %i\n, hdr_size(hdr));".
Proof.
  split; [reflexivity|]. split; reflexivity.
Qed.

(** ** The printer *)

Section Printer.
Context `{Cg}.

Lemma print_field_adds_a_row (s : KsyStruct.t) (enum_unknown : string)
  (f : KsyStructField.t) (pre : string) (table : list print_row) :
  is_ok (KsyStructField.ctype_fprint f) = true ->
  exists pre' row,
    print_field s enum_unknown f (pre, table) = Ok (pre', (table ++ [row])%list).
Proof.
  intros Hfmt. unfold print_field.
  destruct (KsyStructField.ctype_fprint f) as [fmt|err]; [|discriminate].
  cbn [bind].
  destruct (KsyStructField.arr_len f); [|destruct (KsyStructField.enum f)];
    eexists; eexists; reflexivity.
Qed.

Lemma print_fields_add_rows (s : KsyStruct.t) (enum_unknown : string)
  (fs : list KsyStructField.t) (pre : string) (table : list print_row) :
  Forall (fun f => is_ok (KsyStructField.ctype_fprint f) = true) fs ->
  exists pre' rows,
    for_in fs (print_field s enum_unknown) (pre, table)
    = Ok (pre', (table ++ rows)%list) /\
    length rows = length fs.
Proof.
  intros Hfs. revert pre table.
  induction Hfs as [|f fs Hf _ IH]; intros pre table.
  - exists pre, []. split; [|reflexivity]. simpl. now rewrite app_nil_r.
  - destruct (print_field_adds_a_row s enum_unknown f pre table Hf)
      as (pre1 & row & Hrow).
    destruct (IH pre1 (table ++ [row])%list) as (pre2 & rows & Hrows & Hlen).
    exists pre2, (row :: rows). split.
    + cbn [for_in]. rewrite Hrow. cbn [bind]. rewrite Hrows, <- app_assoc.
      reflexivity.
    + simpl. now rewrite Hlen.
Qed.

Lemma print_comp_fields_add_rows (s : KsyStruct.t) (enum_unknown : string)
  (items : list (string * ksy_comp)) (pre : string) (table : list print_row) :
  exists pre' rows,
    for_in items
      (fun item st =>
         print_comp_field s enum_unknown
           (KsyStructCompField.init (fst item) (snd item)) st)
      (pre, table)
    = Ok (pre', (table ++ rows)%list) /\
    length rows = length items.
Proof.
  revert pre table. induction items as [|item items IH]; intros pre table.
  - exists pre, []. split; [|reflexivity]. simpl. now rewrite app_nil_r.
  - cbn [for_in]. unfold print_comp_field at 1.
    destruct (KsyStructCompField.enum
                (KsyStructCompField.init (fst item) (snd item))); cbn [bind];
      match goal with
      | |- context [for_in items _ (?p, (table ++ [?row])%list)] =>
          destruct (IH p (table ++ [row])%list) as (pre2 & rows & Hrows & Hlen);
          exists pre2, (row :: rows); split;
          [ rewrite Hrows, <- app_assoc; reflexivity | simpl; now rewrite Hlen ]
      end.
Qed.

Lemma max_of_rows (table : list print_row) :
  table <> [] ->
  exists w,
    Py.max (map (fun row : print_row => Py.len (fst (fst row))) table) = Ok w.
Proof.
  destruct table; [contradiction|]. intros _. eexists. reflexivity.
Qed.

Lemma ctype_fprint_raises_key_error (f : KsyStructField.t) :
  is_ok (KsyStructField.ctype_fprint f) = false ->
  KsyStructField.ctype_fprint f = Err KeyError.
Proof.
  unfold KsyStructField.ctype_fprint.
  destruct (KsyStructField.enum f); [discriminate|].
  destruct (String.eqb (KsyStructField.type f) "str"); [discriminate|].
  destruct (lookup KSY2C_FPRINT (KsyStructField.type f)) as [spec|].
  - destruct (KsyStructField.arr_len f); [|discriminate].
    cbn [getitem]. rewrite comprehension_const. discriminate.
  - destruct (KsyStructField.arr_len f); [|reflexivity].
    destruct (Py.range z); [discriminate | reflexivity].
Qed.

Lemma print_fields_raise_key_error (s : KsyStruct.t) (enum_unknown : string)
  (fs : list KsyStructField.t) (st : string * list print_row) :
  Exists (fun f => is_ok (KsyStructField.ctype_fprint f) = false) fs ->
  for_in fs (print_field s enum_unknown) st = Err KeyError.
Proof.
  intros Hno. revert st.
  induction Hno as [f fs Hf|f fs _ IH]; intros [pre table]; cbn [for_in];
    unfold print_field at 1.
  - rewrite (ctype_fprint_raises_key_error f Hf). reflexivity.
  - destruct (KsyStructField.ctype_fprint f) as [fmt|] eqn:Hfmt.
    + cbn [bind].
      destruct (KsyStructField.arr_len f); [|destruct (KsyStructField.enum f)];
        cbn [bind]; apply IH.
    + rewrite ctype_fprint_raises_key_error in Hfmt by (rewrite Hfmt; reflexivity).
      injection Hfmt as ->. reflexivity.
Qed.

(** What makes the printer raise before it counts its rows: a missing
    [seq] key, a field without a print format, a missing [instances]
    key; each gives [KeyError]. *)
Lemma build_print_struct_key_errors (s : KsyStruct.t)
  (printf_alias enum_unknown : string) :
  (key_seq (KsyStruct.ksy_struct s) = None ->
   build_print_struct s printf_alias enum_unknown = Err KeyError) /\
  (forall fs,
      fields_of s = Ok fs ->
      Exists (fun f => is_ok (KsyStructField.ctype_fprint f) = false) fs ->
      build_print_struct s printf_alias enum_unknown = Err KeyError) /\
  (forall fs,
      fields_of s = Ok fs ->
      Forall (fun f => is_ok (KsyStructField.ctype_fprint f) = true) fs ->
      key_instances (KsyStruct.ksy_struct s) = None ->
      build_print_struct s printf_alias enum_unknown = Err KeyError).
Proof.
  split; [|split].
  - intros Hseq. unfold build_print_struct, KsyStruct.iter_fields.
    rewrite Hseq. reflexivity.
  - intros fs Hfs Hno. unfold build_print_struct.
    rewrite (iter_fields_built s fs _ _ Hfs).
    rewrite (print_fields_raise_key_error s enum_unknown fs _ Hno). reflexivity.
  - intros fs Hfs Hfmt Hitems. unfold build_print_struct.
    rewrite (iter_fields_built s fs _ _ Hfs).
    destruct (print_fields_add_rows s enum_unknown fs "" [] Hfmt)
      as (pre1 & rows1 & -> & _).
    cbn [bind]. unfold KsyStruct.iter_comp_fields. rewrite Hitems. reflexivity.
Qed.

(** C9, as the code has it.  The printer takes the greatest label width
    over its rows, one per sequence field and one per computed field.
    On a struct that has the keys [seq] and [instances] and whose fields
    are all built and have a print format, it produces the print
    function as soon as there is one row: the function of the struct's
    name whose single print statement covers the rows the two loops
    made, labels padded to the greatest width; and with no row at all
    it raises [ValueError]. *)
Theorem build_print_struct_needs_a_row (s : KsyStruct.t)
  (printf_alias enum_unknown : string)
  (fs : list KsyStructField.t) (items : list (string * ksy_comp)) :
  fields_of s = Ok fs ->
  key_instances (KsyStruct.ksy_struct s) = Some items ->
  Forall (fun f => is_ok (KsyStructField.ctype_fprint f) = true) fs ->
  (fs <> [] \/ items <> [] ->
   exists st func_body_prefix print_table max_key_len,
     for_in fs (print_field s enum_unknown) ("", []) = Ok st /\
     for_in items
       (fun item st' =>
          print_comp_field s enum_unknown
            (KsyStructCompField.init (fst item) (snd item)) st')
       st
     = Ok (func_body_prefix, print_table) /\
     length print_table = length fs + length items /\
     Py.max (map (fun row : print_row => Py.len (fst (fst row))) print_table)
     = Ok max_key_len /\
     build_print_struct s printf_alias enum_unknown
     = Ok (mkCFunc
             (comment ("Utility function for printing " ++ KsyStruct.name s ++ "."))
             ("void " ++ cn_func_name (KsyStruct.name s ++ "_print")
              ++ "(const " ++ cn_struct_type (KsyStruct.name s) ++ " *"
              ++ cn_arg (KsyStruct.name s) ++ ")")
             (ensure_linebreak func_body_prefix
              ++ printf_build
                   (fold_left
                      (fun b (row : print_row) =>
                         let '(pt_name, pt_value, pt_args) := row in
                         printf_add b
                           (Py.ljust pt_name max_key_len ++ " : " ++ pt_value
                            ++ "\n")
                           pt_args)
                      print_table (new_CPrintfBuilder printf_alias))
              ++ ";"))) /\
  (fs = [] -> items = [] ->
   build_print_struct s printf_alias enum_unknown = Err ValueError).
Proof.
  intros Hfs Hitems Hfmt. split.
  - intros Hrow.
    destruct (print_fields_add_rows s enum_unknown fs "" [] Hfmt)
      as (pre1 & rows1 & Hloop1 & Hlen1).
    cbn [app] in Hloop1.
    destruct (print_comp_fields_add_rows s enum_unknown items pre1 rows1)
      as (pre2 & rows2 & Hloop2 & Hlen2).
    assert (Hlen : length (rows1 ++ rows2) = length fs + length items).
    { rewrite length_app, Hlen1, Hlen2. reflexivity. }
    destruct (max_of_rows (rows1 ++ rows2)) as [w Hmax].
    { intros Hnil. rewrite Hnil in Hlen. simpl in Hlen.
      destruct Hrow as [Hne|Hne]; apply Hne.
      - destruct fs; [reflexivity | simpl in Hlen; lia].
      - destruct items; [reflexivity | simpl in Hlen; lia]. }
    exists (pre1, rows1), pre2, (rows1 ++ rows2)%list, w.
    split; [exact Hloop1|]. split; [exact Hloop2|].
    split; [exact Hlen|]. split; [exact Hmax|].
    unfold build_print_struct.
    rewrite (iter_fields_built s fs _ _ Hfs), Hloop1. cbn [bind].
    unfold KsyStruct.iter_comp_fields. rewrite Hitems. cbn [getitem bind].
    rewrite Hloop2. cbn [bind]. rewrite Hmax. reflexivity.
  - intros -> ->. unfold build_print_struct.
    rewrite (iter_fields_built s [] _ _ Hfs).
    unfold KsyStruct.iter_comp_fields. rewrite Hitems. reflexivity.
Qed.

End Printer.

Lemma build_print_struct_needs_a_row_witness :
  (exists (fn : CFunc) (print_table : list print_row),
      @build_print_struct plain_cg image "printf" "<unknown>" = Ok fn /\
      signature fn = "void image_print(const image_t *image)" /\
      length print_table = 4) /\
  @build_print_struct plain_cg no_rows "printf" "<unknown>" = Err ValueError.
Proof.
  split.
  - pose proof (proj1 (@build_print_struct_needs_a_row plain_cg image "printf"
                         "<unknown>" _ [] eq_refl eq_refl
                         ltac:(repeat constructor))) as Hok.
    destruct Hok as (st & pre & table & w & _ & _ & Hlen & _ & Hbuild);
      [left; discriminate|].
    eexists. exists table. split; [exact Hbuild|]. split; [reflexivity | exact Hlen].
  - apply (proj2 (@build_print_struct_needs_a_row plain_cg no_rows "printf" "<unknown>"
                    [] [] eq_refl eq_refl ltac:(constructor)));
      reflexivity.
Defined.

(** C9 as stated fails: a struct with one sequence field and no
    [instances] key has a row to print, yet the printer raises
    [KeyError] when it reads the computed fields; and so it does on a
    struct one of whose fields has an unknown type tag. *)
Lemma printer_needs_more_than_a_row :
  fields_of seq_only = Ok [KsyStructField.mk "crc" "u4" None None None None] /\
  @build_print_struct plain_cg seq_only "printf" "<unknown>" = Err KeyError /\
  @build_print_struct plain_cg with_unknown_tag "printf" "<unknown>" = Err KeyError.
Proof.
  split; [|split]; reflexivity.
Qed.

(** ** The converter *)

Lemma convert_pair_other (arg_src arg_dest : string) (skip : list string)
  (f d : KsyStructField.t) (body_ : string) :
  KsyStructField.name f <> KsyStructField.name d
  \/ Py.contains (KsyStructField.name f) skip = true ->
  convert_pair arg_src arg_dest skip f d body_ = Ok body_.
Proof.
  intros Hother. unfold convert_pair.
  destruct Hother as [Hname|Hskip].
  - apply String.eqb_neq in Hname. rewrite Hname. reflexivity.
  - rewrite Hskip, andb_false_r. reflexivity.
Qed.

Lemma convert_pair_copies (arg_src arg_dest : string) (skip : list string)
  (f d : KsyStructField.t) (body_ : string) :
  KsyStructField.name f = KsyStructField.name d ->
  Py.contains (KsyStructField.name f) skip = false ->
  copyable f d = true ->
  convert_pair arg_src arg_dest skip f d body_
  = Ok (body_ ++ Py.nl ++ copy_statement arg_src arg_dest f d (cast_text f d)).
Proof.
  intros Hname Hskip Hcopy. unfold convert_pair, copy_statement, cast_text.
  apply String.eqb_eq in Hname. rewrite Hname, Hskip. cbn [negb andb].
  unfold copyable, lengths_agree in Hcopy.
  apply andb_prop in Hcopy as [Hcopy Hlen].
  apply andb_prop in Hcopy as [Hsrc Hdest].
  destruct (KsyStructField.ctype f) as [cs|]; [|discriminate].
  destruct (KsyStructField.ctype d) as [cd|]; [|discriminate].
  cbn [bind].
  destruct (KsyStructField.arr_len f) as [k|].
  - rewrite Hlen. reflexivity.
  - destruct (KsyStructField.str_len f) as [n|].
    + rewrite Hlen. reflexivity.
    + reflexivity.
Qed.

Lemma convert_pair_asserts (arg_src arg_dest : string) (skip : list string)
  (f d : KsyStructField.t) (body_ : string) :
  KsyStructField.name f = KsyStructField.name d ->
  Py.contains (KsyStructField.name f) skip = false ->
  is_ok (KsyStructField.ctype f) = true ->
  is_ok (KsyStructField.ctype d) = true ->
  lengths_agree f d = false ->
  convert_pair arg_src arg_dest skip f d body_ = Err AssertionError.
Proof.
  intros Hname Hskip Hsrc Hdest Hlen. unfold convert_pair.
  apply String.eqb_eq in Hname. rewrite Hname, Hskip. cbn [negb andb].
  unfold lengths_agree in Hlen.
  destruct (KsyStructField.ctype f) as [cs|]; [|discriminate].
  destruct (KsyStructField.ctype d) as [cd|]; [|discriminate].
  cbn [bind].
  destruct (KsyStructField.arr_len f) as [k|].
  - rewrite Hlen. reflexivity.
  - destruct (KsyStructField.str_len f) as [n|]; [|discriminate].
    rewrite Hlen. reflexivity.
Qed.

Lemma contains_In (x : string) (l : list string) :
  Py.contains x l = true <-> In x l.
Proof.
  unfold Py.contains. rewrite existsb_exists. split.
  - intros (y & Hy & Heq). apply String.eqb_eq in Heq. now subst.
  - intros Hx. exists x. split; [exact Hx | apply String.eqb_refl].
Qed.

Lemma contains_not_In (x : string) (l : list string) :
  Py.contains x l = false <-> ~ In x l.
Proof.
  destruct (Py.contains x l) eqn:Hx; split; intros Hnot.
  - discriminate.
  - apply contains_In in Hx. contradiction.
  - intros Hin. apply contains_In in Hin. congruence.
  - reflexivity.
Qed.

Section Converter.
Variables (arg_src arg_dest : string) (skip : list string).

(** A pair that does not raise adds its text after what is there. *)
Lemma convert_pair_appends (f d : KsyStructField.t) (body_ : string) :
  (KsyStructField.name f = KsyStructField.name d ->
   ~ In (KsyStructField.name f) skip -> copyable f d = true) ->
  convert_pair arg_src arg_dest skip f d body_
  = Ok (body_ ++ pair_text arg_src arg_dest skip f d).
Proof.
  intros Hcopy. unfold pair_text.
  destruct (String.eqb_spec (KsyStructField.name f) (KsyStructField.name d))
    as [Hname|Hname].
  - destruct (Py.contains (KsyStructField.name f) skip) eqn:Hskip.
    + rewrite !convert_pair_other by (right; exact Hskip).
      now rewrite append_nil_r.
    + specialize (Hcopy Hname (proj1 (contains_not_In _ _) Hskip)).
      rewrite !convert_pair_copies by assumption. reflexivity.
  - rewrite !convert_pair_other by (left; exact Hname).
    now rewrite append_nil_r.
Qed.

Lemma pair_text_other (f d : KsyStructField.t) :
  KsyStructField.name f <> KsyStructField.name d
  \/ In (KsyStructField.name f) skip ->
  pair_text arg_src arg_dest skip f d = "".
Proof.
  intros Hother. unfold pair_text. rewrite convert_pair_other; [reflexivity|].
  destruct Hother as [Hname|Hskip]; [left; exact Hname | right].
  apply contains_In. exact Hskip.
Qed.

Lemma pair_text_copies (f d : KsyStructField.t) :
  KsyStructField.name f = KsyStructField.name d ->
  ~ In (KsyStructField.name f) skip ->
  copyable f d = true ->
  pair_text arg_src arg_dest skip f d
  = Py.nl ++ copy_statement arg_src arg_dest f d (cast_text f d).
Proof.
  intros Hname Hskip Hcopy. unfold pair_text.
  rewrite convert_pair_copies; [reflexivity | assumption | | assumption].
  apply contains_not_In. exact Hskip.
Qed.

(** The inner loop over destination fields that can all be copied. *)
Lemma convert_inner_loop (f : KsyStructField.t) (fd : list KsyStructField.t)
  (body_ : string) :
  (forall d, In d fd ->
             KsyStructField.name f = KsyStructField.name d ->
             ~ In (KsyStructField.name f) skip -> copyable f d = true) ->
  for_in fd (convert_pair arg_src arg_dest skip f) body_
  = Ok (body_ ++ copy_text arg_src arg_dest skip fd f).
Proof.
  unfold copy_text. revert body_.
  induction fd as [|d fd IH]; intros body_ Hcopy.
  - simpl. now rewrite append_nil_r.
  - cbn [for_in map].
    rewrite convert_pair_appends by (apply Hcopy; left; reflexivity).
    cbn [bind]. rewrite IH by (intros d' Hd'; apply Hcopy; right; exact Hd').
    now rewrite concat_empty_cons, append_assoc.
Qed.

(** A source field absent from the destination, or skipped, adds
    nothing. *)
Lemma copy_text_none (f : KsyStructField.t) (fd : list KsyStructField.t) :
  ~ In (KsyStructField.name f) (map KsyStructField.name fd)
  \/ In (KsyStructField.name f) skip ->
  copy_text arg_src arg_dest skip fd f = "".
Proof.
  intros Hnone. unfold copy_text.
  induction fd as [|d fd IH]; [reflexivity|].
  cbn [map]. rewrite concat_empty_cons, pair_text_other, IH; [reflexivity| |].
  - destruct Hnone as [Habsent|Hskip]; [left | right; exact Hskip].
    intros Hin. apply Habsent. right. exact Hin.
  - destruct Hnone as [Habsent|Hskip]; [left | right; exact Hskip].
    intros Hname. apply Habsent. left. symmetry. exact Hname.
Qed.

(** With distinct destination names, a source field that is in the
    destination and not skipped adds exactly the text of its pair. *)
Lemma copy_text_one (f d : KsyStructField.t) (fd : list KsyStructField.t) :
  NoDup (map KsyStructField.name fd) ->
  In d fd ->
  KsyStructField.name f = KsyStructField.name d ->
  copy_text arg_src arg_dest skip fd f = pair_text arg_src arg_dest skip f d.
Proof.
  intros Hnodup Hd Hname. unfold copy_text.
  induction fd as [|x fd IH]; [destruct Hd|].
  cbn [map] in *. apply NoDup_cons_iff in Hnodup as [Hx Hnodup].
  rewrite concat_empty_cons. destruct Hd as [->|Hd].
  - fold (copy_text arg_src arg_dest skip fd f).
    rewrite copy_text_none; [now rewrite append_nil_r|].
    left. rewrite Hname. exact Hx.
  - rewrite pair_text_other, (IH Hnodup Hd); [reflexivity|].
    left. rewrite Hname. intros Heq. apply Hx. rewrite <- Heq.
    apply in_map. exact Hd.
Qed.

End Converter.

Section ConvertStruct.
Context `{Cg}.

Lemma convert_outer_loop (arg_src arg_dest : string) (skip : list string)
  (fs fd : list KsyStructField.t) (body_ : string) :
  (forall f d, In f fs -> In d fd ->
               KsyStructField.name f = KsyStructField.name d ->
               ~ In (KsyStructField.name f) skip -> copyable f d = true) ->
  for_in fs
    (fun src_field b => for_in fd (convert_pair arg_src arg_dest skip src_field) b)
    body_
  = Ok (body_ ++ String.concat "" (map (copy_text arg_src arg_dest skip fd) fs)).
Proof.
  revert body_. induction fs as [|f fs IH]; intros body_ Hcopy.
  - simpl. now rewrite append_nil_r.
  - cbn [for_in map].
    rewrite convert_inner_loop
      by (intros d Hd; apply Hcopy; [left; reflexivity | exact Hd]).
    cbn [bind].
    rewrite IH by (intros f' d Hf'; apply Hcopy; right; exact Hf').
    now rewrite concat_empty_cons, append_assoc.
Qed.

(** C1, as the code has it.  The converter copies per pair of fields
    and asserts the lengths of each pair.  For structs whose fields are
    built, with distinct destination names, and whose same-named pairs
    outside the skip list can be copied (both have a C type, and the
    array or string lengths are equal): the generated body is the prefix
    followed by what each source field adds, in order; a source field
    that is in the destination under the same name and is not skipped
    adds exactly one copy statement; a source field that is not in the
    destination, or is skipped, adds nothing; and nothing is added for
    a destination field alone. *)
Theorem convert_struct_copies_shared_fields (struct_src struct_dest : KsyStruct.t)
  (body_prefix : string) (skip : list string) (fs fd : list KsyStructField.t) :
  fields_of struct_src = Ok fs ->
  fields_of struct_dest = Ok fd ->
  NoDup (map KsyStructField.name fd) ->
  (forall f d, In f fs -> In d fd ->
               KsyStructField.name f = KsyStructField.name d ->
               ~ In (KsyStructField.name f) skip -> copyable f d = true) ->
  let arg_src := cn_arg (KsyStruct.name struct_src) in
  let arg_dest := cn_arg (KsyStruct.name struct_dest) in
  (exists fn,
      convert_struct struct_src struct_dest body_prefix skip = Ok fn /\
      body fn
      = Py.nl
        ++ (body_prefix
            ++ String.concat "" (map (copy_text arg_src arg_dest skip fd) fs))
        ++ Py.nl ++ "return 1;" ++ Py.nl) /\
  (forall f d,
      In f fs -> In d fd ->
      KsyStructField.name f = KsyStructField.name d ->
      ~ In (KsyStructField.name f) skip ->
      copy_text arg_src arg_dest skip fd f
      = Py.nl ++ copy_statement arg_src arg_dest f d (cast_text f d)) /\
  (forall f,
      In f fs ->
      ~ In (KsyStructField.name f) (map KsyStructField.name fd)
      \/ In (KsyStructField.name f) skip ->
      copy_text arg_src arg_dest skip fd f = "").
Proof.
  intros Hfs Hfd Hnodup Hcopy arg_src arg_dest. split; [|split].
  - unfold convert_struct, convert_body.
    rewrite (iter_fields_built struct_src fs _ _ Hfs).
    rewrite (for_in_ext fs _
               (fun src_field b =>
                  for_in fd (convert_pair arg_src arg_dest skip src_field) b))
      by (intros f b; apply iter_fields_built; exact Hfd).
    rewrite (convert_outer_loop arg_src arg_dest skip fs fd body_prefix Hcopy).
    cbn [bind]. eexists. split; reflexivity.
  - intros f d Hf Hd Hname Hskip.
    rewrite (copy_text_one arg_src arg_dest skip f d fd Hnodup Hd Hname).
    apply pair_text_copies; auto.
  - intros f _ Hnone. apply copy_text_none. exact Hnone.
Qed.

End ConvertStruct.

Lemma convert_struct_copies_shared_fields_witness :
  exists fn,
    @convert_struct plain_cg n1 n2 "" ["magic"] = Ok fn /\
    body fn
    = Py.nl ++ Py.nl ++ "n2->dim = (int64_t) n1->dim;"
      ++ Py.nl ++ "memcpy(n2->descrip, n1->descrip, 80);"
      ++ Py.nl ++ "return 1;" ++ Py.nl.
Proof.
  refine (proj1 (@convert_struct_copies_shared_fields plain_cg n1 n2 "" ["magic"]
                   _ _ eq_refl eq_refl _ _)).
  - repeat constructor; simpl; intuition discriminate.
  - intros f d Hf Hd Hname Hskip. simpl in Hf, Hd.
    repeat (destruct Hf as [Hf|Hf]; [subst f|]); try contradiction;
      repeat (destruct Hd as [Hd|Hd]; [subst d|]); try contradiction;
      try discriminate Hname; try reflexivity.
    exfalso. apply Hskip. simpl. left. reflexivity.
Defined.

(** C1 as stated fails: [magic] is in both headers and is not skipped,
    yet no copy statement is produced for it, because its array lengths
    differ and the converter's assertion stops the generation. *)
Lemma convert_struct_asserts_equal_lengths :
  KsyStruct.field_names n1 = Ok ["magic"; "dim"; "descrip"; "extents"] /\
  KsyStruct.field_names n2 = Ok ["magic"; "dim"; "descrip"] /\
  @convert_struct plain_cg n1 n2 "" [] = Err AssertionError.
Proof.
  split; [|split]; reflexivity.
Qed.

(** * Further properties of the script *)

(** ** What the field derivations agree on *)

Lemma known_tag_has_type (ty : string) :
  In ty KSY_BYTESWAPPABLE -> exists c, lookup KSY2C_TYPE ty = Some c.
Proof.
  intros Hty. each_tag Hty; eexists; reflexivity.
Qed.

Lemma known_tag_has_format (ty : string) :
  In ty KSY_BYTESWAPPABLE -> exists spec, lookup KSY2C_FPRINT ty = Some spec.
Proof.
  intros Hty. each_tag Hty; eexists; reflexivity.
Qed.

(** X1: the two tables and the swap list know the same ten tags.  For a
    field that is not a string, the declared type and the external type
    exist exactly when the field is swap-eligible, and then the print
    format exists too. *)
Theorem known_tag_derivations_agree (f : KsyStructField.t) :
  KsyStructField.type f <> "str" ->
  is_ok (KsyStructField.cdef f) = KsyStructField.needs_byteswap f /\
  is_ok (KsyStructField.ctype f) = KsyStructField.needs_byteswap f /\
  (KsyStructField.needs_byteswap f = true ->
   is_ok (KsyStructField.ctype_fprint f) = true).
Proof.
  intros Hstr. apply String.eqb_neq in Hstr.
  unfold KsyStructField.cdef, KsyStructField.ctype, KsyStructField.ctype_fprint,
    KsyStructField.needs_byteswap.
  rewrite Hstr.
  destruct (Py.contains (KsyStructField.type f) KSY_BYTESWAPPABLE) eqn:Hswap.
  - apply contains_In in Hswap.
    destruct (known_tag_has_type _ Hswap) as [c ->].
    destruct (known_tag_has_format _ Hswap) as [spec ->].
    repeat split.
    + destruct (KsyStructField.arr_len f); reflexivity.
    + destruct (KsyStructField.arr_len f); reflexivity.
    + intros _. destruct (KsyStructField.enum f); [reflexivity|].
      destruct (KsyStructField.arr_len f); [|reflexivity].
      cbn [getitem]. rewrite comprehension_const. reflexivity.
  - apply contains_not_In in Hswap. rewrite (unknown_tag_no_type _ Hswap).
    repeat split; try discriminate;
      destruct (KsyStructField.arr_len f); reflexivity.
Qed.

Lemma known_tag_derivations_agree_witness :
  is_ok (KsyStructField.cdef (KsyStructField.mk "crc" "u4" None None None None)) = true /\
  is_ok (KsyStructField.ctype (KsyStructField.mk "x" "foo" None None None None)) = false.
Proof.
  split.
  - exact (proj1 (known_tag_derivations_agree
                    (KsyStructField.mk "crc" "u4" None None None None)
                    ltac:(discriminate))).
  - exact (proj1 (proj2 (known_tag_derivations_agree
                           (KsyStructField.mk "x" "foo" None None None None)
                           ltac:(discriminate)))).
Defined.

(** X2: on a swap-eligible field the byte width is 1, 2, 4 or 8, so the
    swapper only ever names the primitives of 16, 32 and 64 bits; on a
    string field the width raises [ValueError], which the eligibility
    test keeps the swapper from. *)
Theorem nbytes_of_swappable (f : KsyStructField.t) :
  (KsyStructField.needs_byteswap f = true ->
   exists w, KsyStructField.nbytes f = Ok w /\ In w [1; 2; 4; 8]%Z) /\
  (KsyStructField.type f = "str" ->
   KsyStructField.nbytes f = Err ValueError /\
   KsyStructField.needs_byteswap f = false).
Proof.
  unfold KsyStructField.nbytes, KsyStructField.needs_byteswap.
  destruct f as [n ty sl al en dc]. cbn [KsyStructField.type]. split.
  - intros Hswap. apply swappable_tags in Hswap.
    each_tag Hswap; eexists; (split; [reflexivity | simpl; tauto]).
  - intros ->. split; reflexivity.
Qed.

Lemma nbytes_of_swappable_witness :
  (exists w,
      KsyStructField.nbytes (KsyStructField.mk "crc" "u4" None None None None) = Ok w /\
      In w [1; 2; 4; 8]%Z) /\
  KsyStructField.nbytes (KsyStructField.mk "descrip" "str" (Some 80%Z) None None None)
  = Err ValueError.
Proof.
  split.
  - apply (proj1 (nbytes_of_swappable
                    (KsyStructField.mk "crc" "u4" None None None None))).
    reflexivity.
  - apply (proj2 (nbytes_of_swappable
                    (KsyStructField.mk "descrip" "str" (Some 80%Z) None None None))).
    reflexivity.
Defined.

(** X3: for an entry whose [size], where it is read, is an integer (as
    every [size] of a [ksy_field] is): a field that is built has a string
    length exactly when its tag is the string tag, and never both a
    string length and an array length; the string length of a built
    string field is the entry's [size], and its declared type is the
    character array of that size. *)
Theorem init_length_invariant (e : ksy_field) (f : KsyStructField.t) :
  KsyStructField.init e = Ok f ->
  (KsyStructField.type f = "str" <-> exists n, KsyStructField.str_len f = Some n) /\
  (KsyStructField.str_len f = None \/ KsyStructField.arr_len f = None) /\
  (KsyStructField.type f = "str" ->
   exists n,
     key_size e = Some n /\
     KsyStructField.str_len f = Some n /\
     KsyStructField.cdef f
     = Ok ("char " ++ KsyStructField.name f ++ "[" ++ Py.str n ++ "]")).
Proof.
  unfold KsyStructField.init. intros Hinit.
  destruct (key_id e) as [n|]; [|discriminate]. cbn [getitem bind] in Hinit.
  destruct (key_type e) as [ty|].
  - destruct (String.eqb_spec ty "str") as [Heq|Hstr].
    + subst ty.
      destruct (key_size e) as [size|]; [|discriminate].
      injection Hinit as <-. cbn. repeat split; eauto.
    + assert (Hshape : exists al,
                 f = KsyStructField.mk n ty None al (key_enum e) (key_doc e)).
      { destruct (key_repeat e).
        - destruct (key_repeat_expr e); [|discriminate].
          injection Hinit as <-. eexists. reflexivity.
        - injection Hinit as <-. eexists. reflexivity. }
      destruct Hshape as [al ->]. cbn. repeat split.
      * intros Habs. contradiction.
      * intros [x Hx]. discriminate.
      * left. reflexivity.
      * intros Habs. contradiction.
  - destruct (key_size e) as [size|]; [|discriminate].
    injection Hinit as <-. cbn. repeat split.
    + discriminate.
    + intros [x Hx]. discriminate.
    + left. reflexivity.
    + discriminate.
Qed.

Lemma init_length_invariant_witness :
  exists n,
    key_size entry_str = Some n /\
    KsyStructField.str_len
      (KsyStructField.mk "descrip" "str" (Some 80%Z) None None None) = Some n /\
    KsyStructField.cdef
      (KsyStructField.mk "descrip" "str" (Some 80%Z) None None None)
    = Ok ("char " ++ "descrip" ++ "[" ++ Py.str n ++ "]").
Proof.
  apply (proj2 (proj2 (init_length_invariant entry_str _ eq_refl))).
  reflexivity.
Defined.

(** ** When the generators fail *)

Lemma init_raises_key_error (e : ksy_field) (err : PyErr) :
  KsyStructField.init e = Err err -> err = KeyError.
Proof.
  unfold KsyStructField.init.
  destruct (key_id e); [|intros Herr; injection Herr as <-; reflexivity].
  cbn [getitem bind].
  destruct (key_type e) as [ty|].
  - destruct (String.eqb ty "str").
    + destruct (key_size e); [discriminate|].
      intros Herr; injection Herr as <-; reflexivity.
    + destruct (key_repeat e); [|discriminate].
      destruct (key_repeat_expr e); [discriminate|].
      intros Herr; injection Herr as <-; reflexivity.
  - destruct (key_size e); [discriminate|].
    intros Herr; injection Herr as <-; reflexivity.
Qed.

Lemma fields_of_raises_key_error (s : KsyStruct.t) (err : PyErr) :
  fields_of s = Err err -> err = KeyError.
Proof.
  unfold fields_of.
  destruct (key_seq (KsyStruct.ksy_struct s)) as [entries|];
    [|intros Herr; injection Herr as <-; reflexivity].
  cbn [getitem bind]. induction entries as [|e entries IH]; [discriminate|].
  cbn [comprehension].
  destruct (KsyStructField.init e) eqn:Hinit.
  - cbn [bind]. destruct (comprehension KsyStructField.init entries); [discriminate|].
    intros Herr. apply IH. injection Herr as <-. reflexivity.
  - intros Herr. injection Herr as <-. eapply init_raises_key_error. exact Hinit.
Qed.

Ltac same_error :=
  split; intros Herr; try discriminate Herr; injection Herr as <-; reflexivity.

(** A loop over the fields whose body never raises fails exactly when
    the fields cannot all be built, and with the same exception. *)
Lemma iter_fields_raises {S : Type} (self : KsyStruct.t)
  (body : KsyStructField.t -> S -> result S) (s : S) (err : PyErr) :
  (forall f st, is_ok (body f st) = true) ->
  KsyStruct.iter_fields self body s = Err err <-> fields_of self = Err err.
Proof.
  intros Hbody. unfold KsyStruct.iter_fields, fields_of.
  destruct (key_seq (KsyStruct.ksy_struct self)) as [entries|];
    cbn [getitem bind]; [|same_error].
  revert s.
  induction entries as [|e entries IH]; intros s; cbn [for_in comprehension].
  - same_error.
  - destruct (KsyStructField.init e) as [f|err']; cbn [bind]; [|same_error].
    specialize (Hbody f s) as Hok.
    destruct (body f s) as [s'|]; [|discriminate]. cbn [bind].
    rewrite IH.
    destruct (comprehension KsyStructField.init entries); cbn [bind]; same_error.
Qed.

(** X4: the byte swapper fails exactly when a sequence entry cannot be
    built, that is on a missing key, and then with [KeyError]; an unknown
    type tag never makes it fail, the field is passed over. *)
Theorem build_byteswap_struct_fails_on_keys_only `{Cg} (s : KsyStruct.t) :
  (forall err, build_byteswap_struct s = Err err <-> fields_of s = Err err) /\
  (forall err, build_byteswap_struct s = Err err -> err = KeyError).
Proof.
  assert (Hiff : forall err,
             build_byteswap_struct s = Err err <-> fields_of s = Err err).
  { intros err. unfold build_byteswap_struct.
    rewrite <- (iter_fields_raises s (byteswap_field s) "" err)
      by (intros f st; rewrite byteswap_field_appends; reflexivity).
    destruct (KsyStruct.iter_fields s (byteswap_field s) ""); cbn [bind];
      same_error. }
  split; [exact Hiff|].
  intros err Herr. apply Hiff in Herr.
  eapply fields_of_raises_key_error. exact Herr.
Qed.

(** ** Enum construction and the grammar *)

Lemma enum_values_loop (n : string) (items : list (Z * ksy_variant))
  (acc : list KsyEnumValue.t) :
  Forall (fun item => variant_var (snd item) <> None) items ->
  exists vs,
    for_in items (enum_value_of n) acc = Ok (acc ++ vs)%list /\
    map Some vs = map (value_of_item n) items.
Proof.
  intros Hids. revert acc.
  induction Hids as [|[value variant] items Hid _ IH]; intros acc.
  - exists []. split; [|reflexivity]. simpl. now rewrite app_nil_r.
  - cbn [for_in]. unfold enum_value_of at 1.
    destruct variant as [var_|[var_|] variant_doc]; cbn in Hid; try contradiction;
      cbn [getitem bind].
    + destruct (IH (acc ++ [KsyEnumValue.mk n var_ value None])%list)
        as (vs & Hloop & Hvs).
      exists (KsyEnumValue.mk n var_ value None :: vs). split.
      * rewrite Hloop, <- app_assoc. reflexivity.
      * cbn [map]. rewrite Hvs. reflexivity.
    + destruct (IH (acc ++ [KsyEnumValue.mk n var_ value variant_doc])%list)
        as (vs & Hloop & Hvs).
      exists (KsyEnumValue.mk n var_ value variant_doc :: vs). split.
      * rewrite Hloop, <- app_assoc. reflexivity.
      * cbn [map]. rewrite Hvs. reflexivity.
Qed.

Lemma enum_values_loop_raises (n : string) (items : list (Z * ksy_variant))
  (acc : list KsyEnumValue.t) :
  Exists (fun item => variant_var (snd item) = None) items ->
  for_in items (enum_value_of n) acc = Err KeyError.
Proof.
  intros Hno. revert acc.
  induction Hno as [[value variant] items Hid|[value variant] items _ IH];
    intros acc; cbn [for_in]; unfold enum_value_of at 1.
  - destruct variant as [var_|[var_|] variant_doc]; cbn in Hid; try discriminate.
    reflexivity.
  - destruct variant as [var_|[var_|] variant_doc]; cbn [getitem bind];
      try reflexivity; apply IH.
Qed.

Lemma enum_init_built (n : string) (g : ksy_grammar)
  (enums : list (string * list (Z * ksy_variant))) (items : list (Z * ksy_variant)) :
  key_enums g = Some enums ->
  dict_get enums n = Ok items ->
  Forall (fun item => variant_var (snd item) <> None) items ->
  exists e,
    KsyEnum_init n g = Ok e /\
    KsyEnum.name e = n /\
    map Some (KsyEnum.values e) = map (value_of_item n) items.
Proof.
  intros Henums Hitems Hids. unfold KsyEnum_init.
  rewrite Henums. cbn [getitem bind]. rewrite Hitems. cbn [bind].
  destruct (enum_values_loop n items [] Hids) as (vs & -> & Hvs).
  cbn [bind app]. eexists. repeat split. exact Hvs.
Qed.

(** X5: building an enum declared in the schema makes one value per
    variant, in the order of the schema, each with the enum's name, the
    variant's key as its value, and its identifier and documentation;
    when some variant is a dict without [id] it raises [KeyError]. *)
Theorem KsyEnum_init_values (n : string) (g : ksy_grammar)
  (enums : list (string * list (Z * ksy_variant))) (items : list (Z * ksy_variant)) :
  key_enums g = Some enums ->
  dict_get enums n = Ok items ->
  (Forall (fun item => variant_var (snd item) <> None) items ->
   exists e,
     KsyEnum_init n g = Ok e /\
     KsyEnum.name e = n /\
     map Some (KsyEnum.values e) = map (value_of_item n) items) /\
  (Exists (fun item => variant_var (snd item) = None) items ->
   KsyEnum_init n g = Err KeyError).
Proof.
  intros Henums Hitems. split.
  - apply (enum_init_built n g enums items Henums Hitems).
  - intros Hno. unfold KsyEnum_init. rewrite Henums. cbn [getitem bind].
    rewrite Hitems. cbn [bind].
    rewrite (enum_values_loop_raises n items [] Hno). reflexivity.
Qed.

Lemma KsyEnum_init_values_witness :
  (exists e,
      KsyEnum_init "unit" (KsyGrammar.ksy sample_grammar) = Ok e /\
      KsyEnum.name e = "unit" /\
      map Some (KsyEnum.values e)
      = [Some (KsyEnumValue.mk "unit" "MM" 2 (Some "millimetre"))]) /\
  KsyEnum_init "unit" (KsyGrammar.ksy grammar_without_id) = Err KeyError.
Proof.
  split.
  - apply (proj1 (KsyEnum_init_values "unit" (KsyGrammar.ksy sample_grammar)
                    _ _ eq_refl eq_refl)).
    repeat constructor; discriminate.
  - apply (proj2 (KsyEnum_init_values "unit" (KsyGrammar.ksy grammar_without_id)
                    _ _ eq_refl eq_refl)).
    left. reflexivity.
Defined.

Lemma dict_get_in {A : Type} (d : list (string * A)) (key : string) :
  In key (map fst d) -> exists v, dict_get d key = Ok v /\ In (key, v) d.
Proof.
  induction d as [|[k v] d IH]; [intros []|]. cbn [map fst dict_get In].
  intros Hkey. destruct (String.eqb_spec key k) as [->|Hneq].
  - exists v. split; [reflexivity | left; reflexivity].
  - destruct Hkey as [Heq|Hkey]; [congruence|].
    destruct (IH Hkey) as (v' & Hget & Hin). exists v'. split; [exact Hget|].
    right. exact Hin.
Qed.

Lemma distinct_keys_one_value {A : Type} (d : list (string * A)) (key : string)
  (v v' : A) :
  NoDup (map fst d) -> In (key, v) d -> In (key, v') d -> v = v'.
Proof.
  induction d as [|[k x] d IH]; [intros _ []|]. cbn [map fst].
  intros Hnodup Hv Hv'. apply NoDup_cons_iff in Hnodup as [Hk Hnodup].
  destruct Hv as [Hv|Hv], Hv' as [Hv'|Hv'].
  - congruence.
  - exfalso. apply Hk. injection Hv as -> _.
    change key with (fst (key, v')). apply in_map. exact Hv'.
  - exfalso. apply Hk. injection Hv' as -> _.
    change key with (fst (key, v)). apply in_map. exact Hv.
  - apply IH; assumption.
Qed.

Lemma iter_enums_loop (g : ksy_grammar)
  (enums l : list (string * list (Z * ksy_variant))) (acc : list KsyEnum.t) :
  key_enums g = Some enums ->
  Forall (fun d => Forall (fun item => variant_var (snd item) <> None) (snd d)) enums ->
  incl l enums ->
  exists es,
    for_in (map fst l)
      (fun enum_name s' =>
         enum <- KsyEnum_init enum_name g ;; Ok (s' ++ [enum])%list) acc
    = Ok (acc ++ es)%list /\
    map KsyEnum.name es = map fst l /\
    (NoDup (map fst enums) ->
     map (fun e => map Some (KsyEnum.values e)) es
     = map (fun d => map (value_of_item (fst d)) (snd d)) l).
Proof.
  intros Henums Hids. revert acc.
  induction l as [|[n items] l IH]; intros acc Hincl.
  - exists []. repeat split. simpl. now rewrite app_nil_r.
  - assert (Hn : In n (map fst enums)).
    { change n with (fst (n, items)). apply in_map. apply Hincl. left. reflexivity. }
    destruct (dict_get_in enums n Hn) as (items' & Hget & Hin).
    assert (Hids' : Forall (fun item => variant_var (snd item) <> None) items').
    { rewrite Forall_forall in Hids. apply (Hids (n, items') Hin). }
    destruct (enum_init_built n g enums items' Henums Hget Hids')
      as (e & Hinit & Hname & Hvalues).
    destruct (IH (acc ++ [e])%list) as (es & Hloop & Hnames & Hvals).
    { intros d Hd. apply Hincl. right. exact Hd. }
    exists (e :: es). cbn [map fst for_in]. rewrite Hinit. cbn [bind].
    rewrite Hloop, <- app_assoc. repeat split.
    + now rewrite Hname, Hnames.
    + intros Hnodup. rewrite (Hvals Hnodup), Hvalues. cbn [snd].
      rewrite (distinct_keys_one_value enums n items items' Hnodup); [reflexivity| |].
      * apply Hincl. left. reflexivity.
      * exact Hin.
Qed.

(** X6: when every variant of the schema has an identifier, the grammar
    yields one enum per declared enum, named by its key and in the order
    of the schema: looking an enum up by a key of the dict never fails.
    The keys of a dict being distinct, each enum has the values of its
    own entry. *)
Theorem iter_enums_in_schema_order (g : KsyGrammar.t)
  (enums : list (string * list (Z * ksy_variant))) :
  key_enums (KsyGrammar.ksy g) = Some enums ->
  Forall (fun d => Forall (fun item => variant_var (snd item) <> None) (snd d)) enums ->
  exists es,
    enums_of g = Ok es /\
    map KsyEnum.name es = map fst enums /\
    (NoDup (map fst enums) ->
     map (fun e => map Some (KsyEnum.values e)) es
     = map (fun d => map (value_of_item (fst d)) (snd d)) enums).
Proof.
  intros Henums Hids. unfold enums_of, KsyGrammar.iter_enums.
  rewrite Henums. cbn [getitem bind].
  destruct (iter_enums_loop (KsyGrammar.ksy g) enums enums [] Henums Hids
              (incl_refl enums)) as (es & Hloop & Hnames & Hvals).
  exists es. repeat split; assumption.
Qed.

Lemma iter_enums_in_schema_order_witness :
  exists es,
    enums_of sample_grammar = Ok es /\
    map KsyEnum.name es = ["color"; "unit"] /\
    map (fun e => map KsyEnumValue.var (KsyEnum.values e)) es
    = [["RED"; "GREEN"]; ["MM"]].
Proof.
  destruct (iter_enums_in_schema_order sample_grammar _ eq_refl
              ltac:(repeat constructor; discriminate))
    as (es & Hes & Hnames & _).
  exists es. split; [exact Hes|]. split; [exact Hnames|].
  vm_compute in Hes. injection Hes as <-. reflexivity.
Defined.

(** ** The struct declaration *)

Section Declaration.
Context `{Cg} `{CgDoc}.

Lemma cdef_raises_key_error (f : KsyStructField.t) :
  is_ok (KsyStructField.cdef f) = false -> KsyStructField.cdef f = Err KeyError.
Proof.
  unfold KsyStructField.cdef.
  destruct (String.eqb (KsyStructField.type f) "str"); [discriminate|].
  destruct (KsyStructField.arr_len f);
    destruct (lookup KSY2C_TYPE (KsyStructField.type f));
    try discriminate; reflexivity.
Qed.

Lemma struct_members_loop (fs : list KsyStructField.t) (acc : list string) :
  Forall (fun f => is_ok (KsyStructField.cdef f) = true) fs ->
  exists members,
    for_in fs struct_member acc = Ok (acc ++ members)%list /\
    Forall2
      (fun f m =>
         exists d, KsyStructField.cdef f = Ok d /\
                   m = docstring (member_doc f) ++ Py.nl ++ d)
      fs members.
Proof.
  intros Hfs. revert acc.
  induction Hfs as [|f fs Hf _ IH]; intros acc.
  - exists []. split; [|constructor]. simpl. now rewrite app_nil_r.
  - cbn [for_in]. unfold struct_member at 1.
    destruct (KsyStructField.cdef f) as [d|] eqn:Hd; [|discriminate]. cbn [bind].
    match goal with
    | |- context [for_in fs _ (acc ++ [?m])%list] =>
        destruct (IH (acc ++ [m])%list) as (members & -> & Hmembers);
        exists (m :: members)
    end.
    split; [rewrite <- app_assoc; reflexivity|].
    constructor; [|exact Hmembers].
    exists d. split; [exact Hd|]. unfold member_doc.
    destruct (KsyStructField.doc f), (KsyStructField.enum f); reflexivity.
Qed.

Lemma struct_members_loop_raises (fs : list KsyStructField.t) (acc : list string) :
  Exists (fun f => is_ok (KsyStructField.cdef f) = false) fs ->
  for_in fs struct_member acc = Err KeyError.
Proof.
  intros Hno. revert acc.
  induction Hno as [f fs Hf|f fs _ IH]; intros acc; cbn [for_in];
    unfold struct_member at 1.
  - rewrite (cdef_raises_key_error f Hf). reflexivity.
  - destruct (KsyStructField.cdef f) eqn:Hd; cbn [bind]; [apply IH|].
    rewrite cdef_raises_key_error in Hd by (rewrite Hd; reflexivity).
    congruence.
Qed.

(** X7: the struct declaration has one member per sequence field, in
    the order of [seq]: the field's doc comment, a line feed, and its
    declared type, where the enum note is part of the comment only when
    the field has a doc string.  When some field has no declared type
    (an unknown tag), no declaration is produced at all: [KeyError]. *)
Theorem build_struct_members_in_order (s : KsyStruct.t) (fs : list KsyStructField.t) :
  fields_of s = Ok fs ->
  (Forall (fun f => is_ok (KsyStructField.cdef f) = true) fs ->
   exists members,
     build_struct s = Ok (mkCStruct (KsyStruct.name s) members) /\
     Forall2
       (fun f m =>
          exists d, KsyStructField.cdef f = Ok d /\
                    m = docstring (member_doc f) ++ Py.nl ++ d)
       fs members) /\
  (Exists (fun f => is_ok (KsyStructField.cdef f) = false) fs ->
   build_struct s = Err KeyError).
Proof.
  intros Hfs. unfold build_struct. rewrite (iter_fields_built s fs _ _ Hfs). split.
  - intros Hdefs.
    destruct (struct_members_loop fs [] Hdefs) as (members & -> & Hmembers).
    cbn [bind app]. exists members. split; [reflexivity | exact Hmembers].
  - intros Hno. rewrite (struct_members_loop_raises fs [] Hno). reflexivity.
Qed.

End Declaration.

Lemma build_struct_members_in_order_witness :
  @build_struct plain_cg plain_cg_doc tagged
  = Ok (mkCStruct "tagged"
          [ "/** pixel kind (enum: color_*) */" ++ Py.nl ++ "uint8_t kind";
            "/**  */" ++ Py.nl ++ "uint32_t pixels[4]";
            "/**  */" ++ Py.nl ++ "char descrip[80]" ]) /\
  @build_struct plain_cg plain_cg_doc with_unknown_tag = Err KeyError.
Proof.
  split.
  - destruct (proj1 (@build_struct_members_in_order plain_cg plain_cg_doc tagged _
                       eq_refl) ltac:(repeat constructor))
      as (members & Hbuild & _).
    rewrite Hbuild. vm_compute in Hbuild. injection Hbuild as <-. reflexivity.
  - apply (proj2 (@build_struct_members_in_order plain_cg plain_cg_doc
                    with_unknown_tag _ eq_refl)).
    right. left. reflexivity.
Defined.

(** ** More on the converter *)

(** A loop fails as soon as its body fails on one element whatever the
    state. *)
Lemma for_in_fails {A S : Type} (l : list A) (body : A -> S -> result S) (a : A) :
  In a l ->
  (forall s, is_ok (body a s) = false) ->
  forall s, is_ok (for_in l body s) = false.
Proof.
  intros Ha Hfail. induction l as [|x l IH]; [destruct Ha|]. intros s.
  cbn [for_in]. destruct Ha as [->|Ha].
  - specialize (Hfail s). destruct (body a s); [discriminate | reflexivity].
  - destruct (body x s); [apply (IH Ha) | reflexivity].
Qed.

Lemma concat_of_empty {A : Type} (f : A -> string) (l : list A) :
  (forall a, In a l -> f a = "") -> String.concat "" (map f l) = "".
Proof.
  intros Hempty. induction l as [|a l IH]; [reflexivity|].
  cbn [map]. rewrite concat_empty_cons, Hempty by (left; reflexivity).
  apply IH. intros x Hx. apply Hempty. right. exact Hx.
Qed.

Lemma type_of_known_tag (ty c : string) :
  lookup KSY2C_TYPE ty = Some c ->
  In (ty, c)
    [ ("s1", "int8_t"); ("u1", "uint8_t"); ("s2", "int16_t"); ("u2", "uint16_t");
      ("s4", "int32_t"); ("u4", "uint32_t"); ("s8", "int64_t"); ("u8", "uint64_t");
      ("f4", "float"); ("f8", "double") ].
Proof.
  unfold KSY2C_TYPE, lookup.
  repeat match goal with
         | |- context [String.eqb ty ?k] =>
             destruct (String.eqb_spec ty k) as [->|_];
             [intros Hc; injection Hc as <-; simpl; tauto|]
         end.
  discriminate.
Qed.

Ltac each_type H :=
  apply type_of_known_tag in H; simpl in H;
  repeat (destruct H as [H|H]; [injection H as <- <-|]); try contradiction.

(** The cast of two fields of known tags and of the same shape. *)
Lemma cast_text_same_shape (f d : KsyStructField.t) (src_c dest_c : string) :
  lookup KSY2C_TYPE (KsyStructField.type f) = Some src_c ->
  lookup KSY2C_TYPE (KsyStructField.type d) = Some dest_c ->
  KsyStructField.arr_len f = KsyStructField.arr_len d ->
  cast_text f d = if String.eqb src_c dest_c then "" else "(" ++ dest_c ++ ") ".
Proof.
  intros Hf Hd Hshape. unfold cast_text, KsyStructField.ctype.
  rewrite <- Hshape, Hf, Hd.
  destruct f as [n ty sl al en dc], d as [n' ty' sl' al' en' dc'].
  cbn [KsyStructField.type KsyStructField.arr_len] in *.
  each_type Hf; each_type Hd; destruct al; reflexivity.
Qed.

(** The cast of a scalar into an array of a known tag. *)
Lemma cast_text_into_array (f d : KsyStructField.t) (src_c dest_c : string) (k : Z) :
  lookup KSY2C_TYPE (KsyStructField.type f) = Some src_c ->
  lookup KSY2C_TYPE (KsyStructField.type d) = Some dest_c ->
  KsyStructField.arr_len f = None ->
  KsyStructField.arr_len d = Some k ->
  cast_text f d = "(" ++ dest_c ++ ") ".
Proof.
  intros Hf Hd Hscalar Harray. unfold cast_text, KsyStructField.ctype.
  rewrite Hscalar, Harray, Hf, Hd.
  destruct f as [n ty sl al en dc], d as [n' ty' sl' al' en' dc'].
  cbn [KsyStructField.type] in *.
  each_type Hf; each_type Hd; reflexivity.
Qed.

Lemma known_tag_has_ctype (f : KsyStructField.t) (c : string) :
  lookup KSY2C_TYPE (KsyStructField.type f) = Some c ->
  is_ok (KsyStructField.ctype f) = true.
Proof.
  intros Hc. unfold KsyStructField.ctype. rewrite Hc.
  destruct (String.eqb (KsyStructField.type f) "str"); [reflexivity|].
  destruct (KsyStructField.arr_len f); reflexivity.
Qed.

Section MoreConverter.
Context `{Cg}.

(** X8: fields in the skip list are not looked at.  When every name the
    two structs share is skipped (or they share none), the converter
    succeeds whatever the fields are, unknown tags and unequal lengths
    included, and its body is the prefix followed by the return. *)
Theorem convert_struct_skipped_fields_unchecked (struct_src struct_dest : KsyStruct.t)
  (body_prefix : string) (skip : list string) (fs fd : list KsyStructField.t) :
  fields_of struct_src = Ok fs ->
  fields_of struct_dest = Ok fd ->
  (forall f d, In f fs -> In d fd ->
               KsyStructField.name f = KsyStructField.name d ->
               In (KsyStructField.name f) skip) ->
  exists fn,
    convert_struct struct_src struct_dest body_prefix skip = Ok fn /\
    body fn = Py.nl ++ body_prefix ++ Py.nl ++ "return 1;" ++ Py.nl.
Proof.
  intros Hfs Hfd Hskip. unfold convert_struct, convert_body.
  rewrite (iter_fields_built struct_src fs _ _ Hfs).
  rewrite (for_in_ext fs _
             (fun src_field b =>
                for_in fd
                  (convert_pair (cn_arg (KsyStruct.name struct_src))
                     (cn_arg (KsyStruct.name struct_dest)) skip src_field) b))
    by (intros f b; apply iter_fields_built; exact Hfd).
  rewrite convert_outer_loop
    by (intros f d Hf Hd Hname Hnot; exfalso; apply Hnot; eauto).
  rewrite concat_of_empty, append_nil_r.
  - cbn [bind]. eexists. split; reflexivity.
  - intros f Hf. apply copy_text_none.
    destruct (in_dec string_dec (KsyStructField.name f) (map KsyStructField.name fd))
      as [Hin|Hnot]; [right | left; exact Hnot].
    apply in_map_iff in Hin as (d & Hname & Hd). eauto.
Qed.

(** X9: the converter never produces a function for two structs that
    share, outside the skip list, a field whose array or string lengths
    differ. *)
Theorem convert_struct_refuses_unequal_lengths (struct_src struct_dest : KsyStruct.t)
  (body_prefix : string) (skip : list string) (fs fd : list KsyStructField.t)
  (f d : KsyStructField.t) :
  fields_of struct_src = Ok fs ->
  fields_of struct_dest = Ok fd ->
  In f fs -> In d fd ->
  KsyStructField.name f = KsyStructField.name d ->
  ~ In (KsyStructField.name f) skip ->
  lengths_agree f d = false ->
  is_ok (convert_struct struct_src struct_dest body_prefix skip) = false.
Proof.
  intros Hfs Hfd Hf Hd Hname Hskip Hlen. unfold convert_struct, convert_body.
  rewrite (iter_fields_built struct_src fs _ _ Hfs).
  rewrite (for_in_ext fs _
             (fun src_field b =>
                for_in fd
                  (convert_pair (cn_arg (KsyStruct.name struct_src))
                     (cn_arg (KsyStruct.name struct_dest)) skip src_field) b))
    by (intros f' b; apply iter_fields_built; exact Hfd).
  match goal with
  | |- is_ok (bind ?loop _) = false =>
      assert (Hloop : is_ok loop = false); [|destruct loop; [discriminate | reflexivity]]
  end.
  apply (for_in_fails fs _ f Hf). intros b.
  apply (for_in_fails fd _ d Hd). intros b'.
  apply contains_not_In in Hskip.
  destruct (KsyStructField.ctype f) as [cs|] eqn:Hcs.
  - destruct (KsyStructField.ctype d) as [cd|] eqn:Hcd.
    + rewrite convert_pair_asserts; try assumption; try reflexivity.
      * rewrite Hcs. reflexivity.
      * rewrite Hcd. reflexivity.
    + unfold convert_pair. apply String.eqb_eq in Hname.
      rewrite Hname, Hskip, Hcs, Hcd. reflexivity.
  - unfold convert_pair. apply String.eqb_eq in Hname.
    rewrite Hname, Hskip, Hcs. reflexivity.
Qed.

End MoreConverter.

Lemma convert_struct_skipped_fields_unchecked_witness :
  exists fn,
    @convert_struct plain_cg n1 with_unknown_tag "/* setup */" [] = Ok fn /\
    body fn = Py.nl ++ "/* setup */" ++ Py.nl ++ "return 1;" ++ Py.nl.
Proof.
  refine (@convert_struct_skipped_fields_unchecked plain_cg n1 with_unknown_tag
            "/* setup */" [] _ _ eq_refl eq_refl _).
  intros f d Hf Hd Hname. simpl in Hf, Hd.
  repeat (destruct Hf as [Hf|Hf]; [subst f|]); try contradiction;
    repeat (destruct Hd as [Hd|Hd]; [subst d|]); try contradiction;
    discriminate Hname.
Defined.

Lemma convert_struct_refuses_unequal_lengths_witness :
  is_ok (@convert_struct plain_cg n1 n2 "" ["dim"]) = false.
Proof.
  refine (@convert_struct_refuses_unequal_lengths plain_cg n1 n2 "" ["dim"] _ _
            (KsyStructField.mk "magic" "u1" None (Some 4%Z) None None)
            (KsyStructField.mk "magic" "u1" None (Some 8%Z) None None)
            eq_refl eq_refl _ _ eq_refl _ eq_refl).
  - left. reflexivity.
  - left. reflexivity.
  - simpl. intros [Habs|[]]. discriminate Habs.
Defined.

(** X10: between two fields of known tags and of the same shape (both
    arrays of one length, or both scalars), the copy statement carries a
    cast exactly when the two C element types differ, and the cast is the
    destination's element type: an array is never cast to a pointer. *)
Theorem convert_pair_casts_element_type (arg_src arg_dest : string)
  (skip : list string) (f d : KsyStructField.t) (body_ src_c dest_c : string) :
  KsyStructField.name f = KsyStructField.name d ->
  ~ In (KsyStructField.name f) skip ->
  lookup KSY2C_TYPE (KsyStructField.type f) = Some src_c ->
  lookup KSY2C_TYPE (KsyStructField.type d) = Some dest_c ->
  KsyStructField.arr_len f = KsyStructField.arr_len d ->
  KsyStructField.str_len f = None ->
  convert_pair arg_src arg_dest skip f d body_
  = Ok (body_ ++ Py.nl
        ++ copy_statement arg_src arg_dest f d
             (if String.eqb src_c dest_c then "" else "(" ++ dest_c ++ ") ")).
Proof.
  intros Hname Hskip Hf Hd Hshape Hstr.
  rewrite convert_pair_copies.
  - rewrite (cast_text_same_shape f d src_c dest_c Hf Hd Hshape). reflexivity.
  - exact Hname.
  - apply contains_not_In. exact Hskip.
  - unfold copyable, lengths_agree.
    rewrite (known_tag_has_ctype f src_c Hf), (known_tag_has_ctype d dest_c Hd).
    rewrite <- Hshape, Hstr.
    destruct (KsyStructField.arr_len f); [apply Z.eqb_refl | reflexivity].
Qed.

Lemma convert_pair_casts_element_type_witness :
  convert_pair "n1" "n2" []
    (KsyStructField.mk "dim" "s2" None (Some 8%Z) None None)
    (KsyStructField.mk "dim" "s8" None (Some 8%Z) None None) ""
  = Ok (Py.nl
        ++ "for (int i = 0; i < 8; ++i) { n2->dim[i] = (int64_t) n1->dim[i]; }").
Proof.
  refine (convert_pair_casts_element_type "n1" "n2" []
            (KsyStructField.mk "dim" "s2" None (Some 8%Z) None None)
            (KsyStructField.mk "dim" "s8" None (Some 8%Z) None None) ""
            "int16_t" "int64_t" eq_refl _ eq_refl eq_refl eq_refl eq_refl).
  intros [].
Defined.

(** X11: the assertions only look from the source side.  A scalar source
    field whose name is an array in the destination is copied without any
    assertion, as one assignment to the array's name with a cast to the
    element type. *)
Theorem convert_pair_scalar_into_array (arg_src arg_dest : string)
  (skip : list string) (f d : KsyStructField.t) (body_ src_c dest_c : string) (k : Z) :
  KsyStructField.name f = KsyStructField.name d ->
  ~ In (KsyStructField.name f) skip ->
  lookup KSY2C_TYPE (KsyStructField.type f) = Some src_c ->
  lookup KSY2C_TYPE (KsyStructField.type d) = Some dest_c ->
  KsyStructField.arr_len f = None ->
  KsyStructField.str_len f = None ->
  KsyStructField.arr_len d = Some k ->
  convert_pair arg_src arg_dest skip f d body_
  = Ok (body_ ++ Py.nl
        ++ (arg_dest ++ "->" ++ KsyStructField.name d) ++ " = "
        ++ ("(" ++ dest_c ++ ") ")
        ++ (arg_src ++ "->" ++ KsyStructField.name f) ++ ";").
Proof.
  intros Hname Hskip Hf Hd Hscalar Hstr Harray.
  rewrite convert_pair_copies.
  - rewrite (cast_text_into_array f d src_c dest_c k Hf Hd Hscalar Harray).
    unfold copy_statement. rewrite Hscalar, Hstr. reflexivity.
  - exact Hname.
  - apply contains_not_In. exact Hskip.
  - unfold copyable, lengths_agree.
    rewrite (known_tag_has_ctype f src_c Hf), (known_tag_has_ctype d dest_c Hd).
    rewrite Hscalar, Hstr. reflexivity.
Qed.

Lemma convert_pair_scalar_into_array_witness :
  convert_pair "a" "b" []
    (KsyStructField.mk "dim" "s2" None None None None)
    (KsyStructField.mk "dim" "s2" None (Some 8%Z) None None) ""
  = Ok (Py.nl ++ "b->dim = (int16_t) a->dim;").
Proof.
  refine (convert_pair_scalar_into_array "a" "b" []
            (KsyStructField.mk "dim" "s2" None None None None)
            (KsyStructField.mk "dim" "s2" None (Some 8%Z) None None) ""
            "int16_t" "int16_t" 8%Z eq_refl _ eq_refl eq_refl eq_refl eq_refl eq_refl).
  intros [].
Defined.

(** ** More on computed expressions *)

(** Cutting at single spaces and joining with single spaces gives the
    string back. *)
Lemma join_split_space (e : string) : Py.join " " (Py.split " " e) = e.
Proof.
  induction e as [|c e IH]; [reflexivity|].
  cbn [Py.split]. destruct (Ascii.eqb_spec c " ") as [->|Hc].
  - destruct (split_cons " " e) as (tok & toks & Hsplit).
    rewrite Hsplit in *.
    change (Py.join " " ("" :: tok :: toks))
      with ("" ++ " " ++ Py.join " " (tok :: toks)).
    rewrite IH. reflexivity.
  - destruct (split_cons " " e) as (tok & toks & Hsplit).
    rewrite Hsplit in *.
    destruct toks as [|tok' toks].
    + cbn in IH |- *. now rewrite IH.
    + change (Py.join " " (String c tok :: tok' :: toks))
        with (String c (tok ++ " " ++ Py.join " " (tok' :: toks))).
      change (Py.join " " (tok :: tok' :: toks))
        with (tok ++ " " ++ Py.join " " (tok' :: toks)) in IH.
      now rewrite IH.
Qed.

Section MoreComputed.
Context `{Cg} `{Utils}.

(** X12: an expression none of whose tokens is a declared field name or
    an integer literal comes out as it went in, less the white space at
    its two ends: cutting at single spaces and joining with single
    spaces loses nothing in between. *)
Theorem cexpr_passes_through (self : KsyStructCompField.t) (s : KsyStruct.t)
  (e : string) (fs : list KsyStructField.t) :
  KsyStructCompField.expr self = Some e ->
  fields_of s = Ok fs ->
  Forall
    (fun tok =>
       Py.contains tok (map KsyStructField.name fs) = false /\
       is_int_literal tok = false)
    (Py.split " " e) ->
  cexpr self s = Ok (Py.strip e).
Proof.
  intros He Hfs Htoks. unfold cexpr. rewrite He. cbn [bind].
  rewrite (cexpr_loop s fs _ _ Hfs). cbn [bind append].
  rewrite (map_ext_in _ (fun t => t ++ " ")).
  - destruct (split_cons " " e) as (tok & toks & Hsplit).
    rewrite Hsplit, concat_trailing_spaces, <- Hsplit, join_split_space.
    unfold Py.strip. now rewrite rstrip_trailing_space.
  - intros tok Htok. rewrite Forall_forall in Htoks.
    destruct (Htoks tok Htok) as [Hname Hlit].
    unfold rewrite_token. now rewrite Hname, Hlit.
Qed.

End MoreComputed.

Lemma cexpr_passes_through_witness :
  @cexpr plain_cg plain_utils
    (KsyStructCompField.mk "half" None (Some " ( a  >> b ) ")) image
  = Ok "( a  >> b )".
Proof.
  refine (@cexpr_passes_through plain_cg plain_utils
            (KsyStructCompField.mk "half" None (Some " ( a  >> b ) ")) image
            " ( a  >> b ) " _ eq_refl eq_refl _).
  repeat constructor.
Defined.

Section Accessors.
Context `{Cg} `{Utils}.

Lemma cexpr_defined (self : KsyStructCompField.t) (s : KsyStruct.t)
  (fs : list KsyStructField.t) :
  fields_of s = Ok fs ->
  KsyStructCompField.expr self <> None ->
  exists text, cexpr self s = Ok text.
Proof.
  intros Hfs He. unfold cexpr.
  destruct (KsyStructCompField.expr self) as [e|]; [|contradiction].
  cbn [bind]. rewrite (cexpr_loop s fs _ _ Hfs). cbn [bind].
  eexists. reflexivity.
Qed.

Lemma comp_field_funcs_loop (s : KsyStruct.t) (fs : list KsyStructField.t)
  (items : list (string * ksy_comp)) (acc : list CFunc) :
  fields_of s = Ok fs ->
  Forall (fun item => comp_key_value (snd item) <> None) items ->
  exists funcs,
    for_in items
      (fun item s' =>
         comp_field_func s (KsyStructCompField.init (fst item) (snd item)) s') acc
    = Ok (acc ++ funcs)%list /\
    Forall2
      (fun item fn =>
         exists text,
           cexpr (KsyStructCompField.init (fst item) (snd item)) s = Ok text /\
           body fn = "return " ++ text ++ ";" /\
           signature fn
           = "int32_t " ++ cn_func_name (KsyStruct.name s ++ "_" ++ fst item)
             ++ "(const " ++ cn_struct_type (KsyStruct.name s) ++ " *"
             ++ cn_arg (KsyStruct.name s) ++ ")")
      items funcs.
Proof.
  intros Hfs Hvalues. revert acc.
  induction Hvalues as [|item items Hvalue _ IH]; intros acc.
  - exists []. split; [|constructor]. simpl. now rewrite app_nil_r.
  - destruct (cexpr_defined (KsyStructCompField.init (fst item) (snd item)) s fs Hfs
                Hvalue) as [text Htext].
    cbn [for_in]. unfold comp_field_func at 1. rewrite Htext. cbn [bind].
    match goal with
    | |- context [for_in items _ (acc ++ [?fn])%list] =>
        destruct (IH (acc ++ [fn])%list) as (funcs & -> & Hfuncs);
        exists (fn :: funcs)
    end.
    split; [rewrite <- app_assoc; reflexivity|].
    constructor; [|exact Hfuncs].
    exists text. repeat split. exact Htext.
Qed.

(** X13: for a struct whose fields are built and whose instances all
    have a [value], the accessor generator returns exactly one function
    per instance, in the order of the instances: each returns the
    instance's translated expression and is named after the struct and
    the instance. *)
Theorem build_comp_field_funcs_one_per_instance (s : KsyStruct.t)
  (fs : list KsyStructField.t) (items : list (string * ksy_comp)) :
  fields_of s = Ok fs ->
  key_instances (KsyStruct.ksy_struct s) = Some items ->
  Forall (fun item => comp_key_value (snd item) <> None) items ->
  exists funcs,
    build_comp_field_funcs s = Ok funcs /\
    Forall2
      (fun item fn =>
         exists text,
           cexpr (KsyStructCompField.init (fst item) (snd item)) s = Ok text /\
           body fn = "return " ++ text ++ ";" /\
           signature fn
           = "int32_t " ++ cn_func_name (KsyStruct.name s ++ "_" ++ fst item)
             ++ "(const " ++ cn_struct_type (KsyStruct.name s) ++ " *"
             ++ cn_arg (KsyStruct.name s) ++ ")")
      items funcs.
Proof.
  intros Hfs Hitems Hvalues.
  unfold build_comp_field_funcs, KsyStruct.iter_comp_fields.
  rewrite Hitems. cbn [getitem bind].
  destruct (comp_field_funcs_loop s fs items [] Hfs Hvalues) as (funcs & Hloop & Hfuncs).
  exists funcs. split; [exact Hloop | exact Hfuncs].
Qed.

End Accessors.

Lemma build_comp_field_funcs_one_per_instance_witness :
  exists funcs,
    @build_comp_field_funcs plain_cg plain_utils tagged = Ok funcs /\
    map body funcs = ["return crc * 4;"; "return tagged->kind;"].
Proof.
  destruct (@build_comp_field_funcs_one_per_instance plain_cg plain_utils tagged
              _ _ eq_refl eq_refl ltac:(repeat constructor; discriminate))
    as (funcs & Hbuild & _).
  exists funcs. split; [exact Hbuild|].
  vm_compute in Hbuild. injection Hbuild as <-. reflexivity.
Defined.

(** ** The rows of the printer *)

Lemma occurrences_percent_cons (c : ascii) (s : string) :
  occurrences "%" (String c s)
  = (if Ascii.ascii_dec "%" c then 1 else 0) + occurrences "%" s.
Proof.
  cbn [occurrences String.prefix].
  destruct (Ascii.ascii_dec "%" c); destruct s; reflexivity.
Qed.

Lemma occurrences_percent_app (a b : string) :
  occurrences "%" (a ++ b) = occurrences "%" a + occurrences "%" b.
Proof.
  induction a as [|c a IH]; [reflexivity|].
  cbn [append]. rewrite !occurrences_percent_cons, IH. lia.
Qed.

Lemma digits_have_no_percent (d : Decimal.uint) :
  occurrences "%" (NilEmpty.string_of_uint d) = 0.
Proof.
  induction d; cbn [NilEmpty.string_of_uint]; [reflexivity|..];
    rewrite occurrences_percent_cons, IHd; reflexivity.
Qed.

Lemma str_has_no_percent (i : Z) : occurrences "%" (Py.str i) = 0.
Proof.
  unfold Py.str, NilZero.string_of_int.
  destruct (Z.to_int i) as [d|d]; unfold NilZero.string_of_uint.
  - destruct d; try reflexivity; apply digits_have_no_percent.
  - rewrite occurrences_percent_cons.
    destruct d; try reflexivity; apply digits_have_no_percent.
Qed.

Lemma fmt_opt_has_no_percent (o : option Z) : occurrences "%" (Py.fmt_opt o) = 0.
Proof.
  destruct o; [apply str_has_no_percent | reflexivity].
Qed.

Lemma specifier_has_one_percent (spec : string) :
  In spec ["%i"; "%u"; "%li"; "%lu"; "%f"] -> occurrences "%" spec = 1.
Proof.
  intros Hspec. simpl in Hspec.
  destruct Hspec as [<-|[<-|[<-|[<-|[<-|[]]]]]]; reflexivity.
Qed.

Lemma joined_specifiers_percents (spec : string) (n : nat) :
  occurrences "%" spec = 1 ->
  occurrences "%" (Py.join ", " (repeat spec n)) = n.
Proof.
  intros Hspec. induction n as [|n IH]; [reflexivity|].
  destruct n as [|n]; [exact Hspec|].
  change (Py.join ", " (repeat spec (S (S n))))
    with (spec ++ ", " ++ Py.join ", " (repeat spec (S n))).
  rewrite !occurrences_percent_app, IH, Hspec. reflexivity.
Qed.

(** A built string field is not an array. *)
Lemma init_string_is_scalar (e : ksy_field) (f : KsyStructField.t) :
  KsyStructField.init e = Ok f ->
  KsyStructField.type f = "str" ->
  KsyStructField.arr_len f = None.
Proof.
  unfold KsyStructField.init. intros Hinit.
  destruct (key_id e) as [n|]; [|discriminate]. cbn [getitem bind] in Hinit.
  destruct (key_type e) as [ty|].
  - destruct (String.eqb_spec ty "str") as [Heq|Hstr].
    + destruct (key_size e); [|discriminate]. injection Hinit as <-. reflexivity.
    + destruct (key_repeat e).
      * destruct (key_repeat_expr e); [|discriminate].
        injection Hinit as <-. intros Habs. contradiction.
      * injection Hinit as <-. reflexivity.
  - destruct (key_size e); [|discriminate]. injection Hinit as <-. discriminate.
Qed.

Section Rows.
Context `{Cg}.

(** X14: the row the printer builds for a built sequence field with a
    print format has two conversions in its format when the field carries
    an enum reference, else as many as the array has elements, else one;
    and it passes as many arguments as the array has elements, else two
    for an enum reference, else one.  So the conversions and the
    arguments agree in number on every field that is not an enum-tagged
    array, and on an enum-tagged array of [k] elements they are two and
    [k].  The row of a computed field has two of each with an enum
    reference and one of each without. *)
Theorem print_rows_match_their_formats (s : KsyStruct.t) (enum_unknown : string)
  (pre : string) (table : list print_row) :
  (forall e f,
      KsyStructField.init e = Ok f ->
      is_ok (KsyStructField.ctype_fprint f) = true ->
      exists pre' row,
        print_field s enum_unknown f (pre, table) = Ok (pre', (table ++ [row])%list) /\
        row_conversions row = field_conversions f /\
        row_arguments row = field_arguments f) /\
  (forall f,
      KsyStructField.enum f = None \/ KsyStructField.arr_len f = None ->
      field_conversions f = field_arguments f) /\
  (forall f en k,
      KsyStructField.enum f = Some en ->
      KsyStructField.arr_len f = Some k ->
      field_conversions f = 2 /\ field_arguments f = Z.to_nat k) /\
  (forall field,
      exists pre' row,
        print_comp_field s enum_unknown field (pre, table)
        = Ok (pre', (table ++ [row])%list) /\
        row_conversions row
        = match KsyStructCompField.enum field with
          | Some _ => 2
          | None => 1
          end /\
        row_arguments row = row_conversions row).
Proof.
  split; [|split; [|split]].
  - intros e f Hinit Hfmt.
    pose proof (init_string_is_scalar e f Hinit) as Hscalar.
    unfold print_field, KsyStructField.ctype_fprint, field_conversions,
      field_arguments in *.
    destruct (KsyStructField.enum f) as [en|].
    + cbn [bind]. destruct (KsyStructField.arr_len f) as [k|].
      * eexists. eexists. split; [reflexivity|]. split; [reflexivity|].
        unfold row_arguments. cbn [snd]. rewrite length_map. apply range_length.
      * eexists. eexists. split; [reflexivity|]. split; reflexivity.
    + destruct (String.eqb_spec (KsyStructField.type f) "str") as [Hstr|Hstr].
      * rewrite (Hscalar Hstr). cbn [bind]. eexists. eexists.
        split; [reflexivity|]. split; [|reflexivity].
        unfold row_conversions. cbn [fst snd].
        rewrite !occurrences_percent_app, fmt_opt_has_no_percent. reflexivity.
      * destruct (KsyStructField.arr_len f) as [k|].
        -- destruct (lookup KSY2C_FPRINT (KsyStructField.type f)) as [spec|] eqn:Hspec.
           ++ cbn [getitem]. rewrite comprehension_const. cbn [bind].
              eexists. eexists. split; [reflexivity|]. split.
              ** unfold row_conversions. cbn [fst snd].
                 rewrite !occurrences_percent_app.
                 rewrite joined_specifiers_percents
                   by (apply specifier_has_one_percent;
                       eapply fprint_specifiers; exact Hspec).
                 rewrite range_length.
                 change (occurrences "%" "[ ") with 0.
                 change (occurrences "%" " ]") with 0. lia.
              ** unfold row_arguments. cbn [snd]. rewrite length_map.
                 apply range_length.
           ++ assert (Hzero : Z.to_nat k = 0).
              { rewrite <- range_length.
                destruct (Py.range k); [reflexivity | discriminate Hfmt]. }
              destruct (Py.range k) as [|i l]; [|discriminate Hfmt].
              cbn [comprehension bind map]. eexists. eexists.
              split; [reflexivity|]. rewrite Hzero. split; reflexivity.
        -- destruct (lookup KSY2C_FPRINT (KsyStructField.type f)) as [spec|] eqn:Hspec;
             [|discriminate Hfmt].
           cbn [getitem bind]. eexists. eexists. split; [reflexivity|].
           split; [|reflexivity].
           unfold row_conversions. cbn [fst snd].
           apply specifier_has_one_percent. eapply fprint_specifiers. exact Hspec.
  - intros f Hshape. unfold field_conversions, field_arguments.
    destruct Hshape as [-> | ->]; [|destruct (KsyStructField.enum f); reflexivity].
    destruct (KsyStructField.arr_len f); reflexivity.
  - intros f en k Hen Harr. unfold field_conversions, field_arguments.
    rewrite Hen, Harr. split; reflexivity.
  - intros field. unfold print_comp_field, KsyStructCompField.ctype_fprint.
    destruct (KsyStructCompField.enum field);
      eexists; eexists; repeat split.
Qed.

End Rows.

Lemma print_rows_match_their_formats_witness :
  exists pre' row,
    @print_field plain_cg image "<unknown>"
      (KsyStructField.mk "pixels" "u4" None (Some 4%Z) None None) ("", [])
    = Ok (pre', [row]) /\
    row_conversions row = 4 /\
    row_arguments row = 4.
Proof.
  exact (proj1 (@print_rows_match_their_formats plain_cg image "<unknown>" "" [])
           entry_array _ eq_refl eq_refl).
Defined.

(** The row of an enum-tagged array of four has two conversions for its
    four arguments. *)
Example enum_array_row_mismatch :
  exists pre' row,
    @print_field plain_cg image "<unknown>"
      (KsyStructField.mk "x" "u4" None (Some 4%Z) (Some "color") None) ("", [])
    = Ok (pre', [row]) /\
    row_conversions row = 2 /\ row_arguments row = 4.
Proof.
  eexists. eexists. repeat split.
Qed.

Lemma length_append (a b : string) :
  String.length (a ++ b) = String.length a + String.length b.
Proof. induction a as [|c a IH]; simpl; [reflexivity | now rewrite IH]. Qed.

Lemma length_spaces (n : nat) : String.length (String.concat "" (repeat " " n)) = n.
Proof.
  induction n as [|n IH]; [reflexivity|].
  cbn [repeat]. rewrite concat_empty_cons, length_append, IH. reflexivity.
Qed.

(** A label no longer than the width is padded to the width; a longer
    one is left as it is. *)
Lemma ljust_length (s : string) (w : Z) :
  (Py.len s <= w)%Z -> Py.len (Py.ljust s w) = w.
Proof.
  unfold Py.len, Py.ljust. intros Hw.
  rewrite length_append, length_spaces. lia.
Qed.

Lemma fold_max_bounds (l : list Z) (x : Z) :
  (x <= fold_left Z.max l x)%Z /\ Forall (fun y => (y <= fold_left Z.max l x)%Z) l.
Proof.
  revert x. induction l as [|y l IH]; intros x; cbn [fold_left].
  - split; [lia | constructor].
  - destruct (IH (Z.max x y)) as [Hx Hl]. split; [lia|].
    constructor; [lia | exact Hl].
Qed.

Lemma max_bounds (l : list Z) (w : Z) :
  Py.max l = Ok w -> Forall (fun y => (y <= w)%Z) l.
Proof.
  destruct l as [|x l]; [discriminate|]. cbn [Py.max].
  intros Hw. injection Hw as <-.
  destruct (fold_max_bounds l x) as [Hx Hl]. constructor; assumption.
Qed.

Section Labels.
Context `{Cg}.

Lemma print_fields_labels (s : KsyStruct.t) (enum_unknown : string)
  (fs : list KsyStructField.t) (pre : string) (table : list print_row) :
  Forall (fun f => is_ok (KsyStructField.ctype_fprint f) = true) fs ->
  exists pre' rows,
    for_in fs (print_field s enum_unknown) (pre, table)
    = Ok (pre', (table ++ rows)%list) /\
    map row_label rows = map KsyStructField.name fs.
Proof.
  intros Hfs. revert pre table.
  induction Hfs as [|f fs Hf _ IH]; intros pre table.
  - exists pre, []. split; [|reflexivity]. simpl. now rewrite app_nil_r.
  - cbn [for_in]. unfold print_field at 1.
    destruct (KsyStructField.ctype_fprint f) as [fmt|]; [|discriminate].
    cbn [bind].
    destruct (KsyStructField.arr_len f); [|destruct (KsyStructField.enum f)];
      cbn [bind];
      match goal with
      | |- context [for_in fs _ (?p, (table ++ [?row])%list)] =>
          destruct (IH p (table ++ [row])%list) as (pre2 & rows & Hrows & Hlabels);
          exists pre2, (row :: rows); split;
          [ rewrite Hrows, <- app_assoc; reflexivity
          | cbn [map]; rewrite Hlabels; reflexivity ]
      end.
Qed.

Lemma print_comp_fields_labels (s : KsyStruct.t) (enum_unknown : string)
  (items : list (string * ksy_comp)) (pre : string) (table : list print_row) :
  exists pre' rows,
    for_in items
      (fun item st =>
         print_comp_field s enum_unknown
           (KsyStructCompField.init (fst item) (snd item)) st)
      (pre, table)
    = Ok (pre', (table ++ rows)%list) /\
    map row_label rows = map (fun item => "*" ++ fst item) items.
Proof.
  revert pre table. induction items as [|item items IH]; intros pre table.
  - exists pre, []. split; [|reflexivity]. simpl. now rewrite app_nil_r.
  - cbn [for_in]. unfold print_comp_field at 1.
    destruct (KsyStructCompField.enum
                (KsyStructCompField.init (fst item) (snd item))); cbn [bind];
      match goal with
      | |- context [for_in items _ (?p, (table ++ [?row])%list)] =>
          destruct (IH p (table ++ [row])%list) as (pre2 & rows & Hrows & Hlabels);
          exists pre2, (row :: rows); split;
          [ rewrite Hrows, <- app_assoc; reflexivity
          | cbn [map]; rewrite Hlabels; reflexivity ]
      end.
Qed.

(** X15: the printer's rows are the sequence fields, labelled by their
    names in the order of [seq], followed by the computed fields,
    labelled by a star and their names in the order of [instances]; the
    width is the length of the longest label, and every label is padded
    to exactly that width in its format line. *)
Theorem build_print_struct_aligns_labels (s : KsyStruct.t)
  (printf_alias enum_unknown : string)
  (fs : list KsyStructField.t) (items : list (string * ksy_comp)) :
  fields_of s = Ok fs ->
  key_instances (KsyStruct.ksy_struct s) = Some items ->
  Forall (fun f => is_ok (KsyStructField.ctype_fprint f) = true) fs ->
  fs <> [] \/ items <> [] ->
  exists func_body_prefix print_table max_key_len,
    map row_label print_table
    = (map KsyStructField.name fs
       ++ map (fun item => ("*" ++ fst item)%string) items)%list /\
    Py.max (map Py.len (map row_label print_table)) = Ok max_key_len /\
    Forall (fun row => Py.len (Py.ljust (row_label row) max_key_len) = max_key_len)
      print_table /\
    option_map body
      (match build_print_struct s printf_alias enum_unknown with
       | Ok fn => Some fn
       | Err _ => None
       end)
    = Some
        (ensure_linebreak func_body_prefix
         ++ printf_build
              (fold_left
                 (fun b (row : print_row) =>
                    let '(pt_name, pt_value, pt_args) := row in
                    printf_add b
                      (Py.ljust pt_name max_key_len ++ " : " ++ pt_value ++ "\n")
                      pt_args)
                 print_table (new_CPrintfBuilder printf_alias))
         ++ ";").
Proof.
  intros Hfs Hitems Hfmt Hrow.
  unfold build_print_struct.
  rewrite (iter_fields_built s fs _ _ Hfs).
  unfold KsyStruct.iter_comp_fields. rewrite Hitems. cbn [getitem].
  destruct (print_fields_labels s enum_unknown fs "" [] Hfmt)
    as (pre1 & rows1 & -> & Hlabels1).
  cbn [bind app].
  destruct (print_comp_fields_labels s enum_unknown items pre1 rows1)
    as (pre2 & rows2 & -> & Hlabels2).
  cbn [bind].
  assert (Hlabels : map row_label (rows1 ++ rows2)
                    = (map KsyStructField.name fs
                       ++ map (fun item => ("*" ++ fst item)%string) items)%list).
  { now rewrite map_app, Hlabels1, Hlabels2. }
  assert (Hmap : map (fun row : print_row => Py.len (fst (fst row))) (rows1 ++ rows2)
                 = map Py.len (map row_label (rows1 ++ rows2))).
  { rewrite map_map. reflexivity. }
  rewrite Hmap.
  destruct (Py.max (map Py.len (map row_label (rows1 ++ rows2))))
    as [w|err] eqn:Hmax.
  - cbn [bind option_map body].
    exists pre2, (rows1 ++ rows2)%list, w. repeat split; try assumption.
    apply max_bounds in Hmax. rewrite Forall_map in Hmax.
    rewrite Forall_forall in Hmax |- *.
    intros row Hin. apply ljust_length.
    apply Hmax. apply in_map. exact Hin.
  - exfalso. rewrite Hlabels in Hmax.
    destruct Hrow as [Hne|Hne].
    + destruct fs; [contradiction | discriminate Hmax].
    + destruct fs; [|discriminate Hmax].
      destruct items; [contradiction | discriminate Hmax].
Qed.

End Labels.

Lemma build_print_struct_aligns_labels_witness :
  exists func_body_prefix print_table max_key_len,
    map row_label print_table = ["kind"; "pixels"; "descrip"; "*count"; "*tone"] /\
    Py.max (map Py.len (map row_label print_table)) = Ok max_key_len /\
    Forall (fun row => Py.len (Py.ljust (row_label row) max_key_len) = max_key_len)
      print_table /\
    option_map body
      (match @build_print_struct plain_cg tagged "printf" "?" with
       | Ok fn => Some fn
       | Err _ => None
       end)
    = Some
        (@ensure_linebreak plain_cg func_body_prefix
         ++ @printf_build plain_cg
              (fold_left
                 (fun b (row : print_row) =>
                    let '(pt_name, pt_value, pt_args) := row in
                    @printf_add plain_cg b
                      (Py.ljust pt_name max_key_len ++ " : " ++ pt_value ++ "\n")
                      pt_args)
                 print_table (@new_CPrintfBuilder plain_cg "printf"))
         ++ ";").
Proof.
  refine (@build_print_struct_aligns_labels plain_cg tagged "printf" "?" _ _
            eq_refl eq_refl _ _).
  - repeat constructor.
  - left. discriminate.
Defined.
